(** * Minecraft-Server-with-Syncing: a shallow embedding of the safety core

    The development follows the Python sources under [lib/]:
    - [utils.py]     timestamps and their age               ([Module Utils])
    - [lock.py]      the replicated lock file               ([Module Lock])
    - [integrity.py] the region-file scanner                ([Module Integrity])
    - [server.py]    graceful and forced stop of the child  ([Module Server])
    - [syncthing.py] the sync-daemon HTTP client            ([Module Syncthing])
    - [backup.py]    snapshots: create, restore, prune      ([Module Backup])

    [Module Examples] holds the concrete hosts, children, replies and
    folders the examples, witnesses and counterexamples run on.  The
    properties follow, one section per component.

    Python exceptions are values of a small class hierarchy ([Module Py]);
    a function that may raise returns an [outcome].  Everything the code
    observes from the operating system (the host name, the clock, the result
    of a write, what the replication daemon does to a file while the process
    sleeps) is an explicit input of the model.  Logging and console output
    are not modelled. *)

From Stdlib Require Import ZArith NArith Ascii String Lia SpecFloat.
From stdpp Require Import base option list strings pretty gmap sorting.

Local Open Scope Z_scope.
Local Open Scope string_scope.

#[local] Set Warnings "-clear-no-such-hyp".

(* ===================================================================== *)
(** * Python exceptions *)
(* ===================================================================== *)

Module Py.

(** The exception classes the sources name in [except] clauses or raise,
    together with the standard-library classes between them and
    [BaseException]. *)
Inductive cls :=
| BaseException | KeyboardInterrupt | Exception
| OSError | ConnectionError | ConnectionRefusedError | BrokenPipeError
| TimeoutError | URLError | HTTPError
| ValueError | JSONDecodeError | UnicodeDecodeError
| TypeError | RuntimeError | NotImplementedError
| BadZipFile | ZlibError | TimeoutExpired
| SyncthingError | SyncthingUnavailable
| BackupError | LockError | ServerError.

#[global] Instance cls_eq_dec : EqDecision cls.
Proof. solve_decision. Defined.

(** The direct base class. *)
Definition base (c : cls) : option cls :=
  match c with
  | BaseException => None
  | KeyboardInterrupt => Some BaseException
  | Exception => Some BaseException
  | OSError => Some Exception
  | ConnectionError => Some OSError
  | ConnectionRefusedError => Some ConnectionError
  | BrokenPipeError => Some ConnectionError
  | TimeoutError => Some OSError
  | URLError => Some OSError
  | HTTPError => Some URLError
  | ValueError => Some Exception
  | JSONDecodeError => Some ValueError
  | UnicodeDecodeError => Some ValueError
  | TypeError => Some Exception
  | RuntimeError => Some Exception
  | NotImplementedError => Some RuntimeError
  | BadZipFile => Some Exception
  | ZlibError => Some Exception          (* [zlib.error] *)
  | TimeoutExpired => Some Exception
  | SyncthingError => Some Exception
  | SyncthingUnavailable => Some SyncthingError
  | BackupError => Some Exception
  | LockError => Some Exception
  | ServerError => Some Exception
  end.

Fixpoint climbs (fuel : nat) (c d : cls) : bool :=
  bool_decide (c = d) ||
  match fuel with
  | O => false
  | S fuel' => match base c with
               | Some b => climbs fuel' b d
               | None => false
               end
  end.

(** [issubclass c d]: the hierarchy above is five levels deep. *)
Definition issubclass (c d : cls) : bool := climbs 6 c d.

(** [except (A, B)]: a tuple of classes in an except clause. *)
Definition issubclass_any (c : cls) (ds : list cls) : bool :=
  existsb (issubclass c) ds.

(** Result of a call that may raise an exception of type [E]. *)
Inductive outcome (E A : Type) :=
| Ret (a : A)
| Raise (e : E).
Arguments Ret {E A} a.
Arguments Raise {E A} e.

Definition bind {E A B} (m : outcome E A) (k : A -> outcome E B) : outcome E B :=
  match m with
  | Ret a => k a
  | Raise e => Raise e
  end.

(** [try: body / except (classes): return handler]. *)
Definition try_except {A} (body : outcome cls A) (classes : list cls)
    (handler : A) : outcome cls A :=
  match body with
  | Ret a => Ret a
  | Raise e => if issubclass_any e classes then Ret handler else Raise e
  end.

End Py.

(* ===================================================================== *)
(** * utils.py *)
(* ===================================================================== *)

Module Utils.

(** A [datetime]: the naive wall-clock fields as microseconds on a linear
    scale, and the UTC offset (microseconds) when the value is aware. *)
Record datetime := {
  wall : Z;
  tzinfo : option Z
}.

(** [str.replace(old, new)] for a one-character [old]. *)
Fixpoint replace (old : ascii) (new : string) (s : string) : string :=
  match s with
  | EmptyString => EmptyString
  | String c s' =>
      if Ascii.eqb c old then new +:+ replace old new s'
      else String c (replace old new s')
  end.

(** A value as [yaml.safe_load] delivers it for a key of the lock file.
    [YOther] covers what is neither of the first four (floats, timestamps
    resolved to [datetime] objects, sequences, nested mappings). *)
Inductive yval :=
| YNull
| YBool (b : bool)
| YInt (z : Z)
| YStr (s : string)
| YOther.

#[global] Instance yval_eq_dec : EqDecision yval.
Proof. solve_decision. Defined.

Section Clock.
(** [datetime.fromisoformat] on a [str]; [None] is [ValueError]. *)
Variable fromisoformat : string -> option datetime.

(** [parse_timestamp].  The argument is whatever the lock file held for
    the key; [datetime.fromisoformat] raises [TypeError] for a value that
    is not a [str], which the inner [except ValueError] lets through. *)
Definition parse_timestamp (ts : yval) : Py.outcome Py.cls datetime :=
  match ts with
  | YStr s =>
      match fromisoformat s with
      | Some d => Py.Ret d
      | None =>
          match fromisoformat (replace "Z"%char "+00:00" s) with
          | Some d => Py.Ret d
          | None => Py.Raise Py.ValueError
          end
      end
  | _ => Py.Raise Py.TypeError
  end.

(** [timestamp_age_seconds] at the instant [now] (UTC, microseconds).
    The result is the age in microseconds; [total_seconds()] is that
    number divided by 10^6 as a float.  The callers compare it with a
    threshold in whole seconds, which is modelled on the exact numbers
    (the float comparison agrees with it for thresholds below 2^33 s). *)
Definition timestamp_age_seconds (now : Z) (ts : yval) : Py.outcome Py.cls Z :=
  match parse_timestamp ts with
  | Py.Raise e => Py.Raise e
  | Py.Ret parsed =>
      let parsed :=
        match tzinfo parsed with
        | None => {| wall := wall parsed; tzinfo := Some 0 |}
        | Some _ => parsed
        end in
      Py.Ret (now - (wall parsed - default 0 (tzinfo parsed)))
  end.
End Clock.

End Utils.

(* ===================================================================== *)
(** * lock.py *)
(* ===================================================================== *)

Module Lock.
Import Utils.

(** [LockInfo].  The dataclass annotates its fields but [from_dict] stores
    whatever the file held, so the fields are YAML values. *)
Record LockInfo := {
  hostname : yval;
  started_at : yval;
  last_heartbeat : yval;
  pid : yval
}.

(** What [yaml.safe_load] returns for a whole document: a mapping with
    string keys, or anything else ([None] for an empty file, a scalar,
    a sequence). *)
Inductive ydoc :=
| DDict (d : gmap string yval)
| DOther.

(** The lock file as the process finds it. *)
Inductive file_state :=
| Absent                      (* [lock_file.exists()] is false *)
| Unreadable                  (* exists, [open(..., 'r')] raises [OSError] *)
| Contents (s : string).       (* the text of the file *)

(** What happens when the process opens the lock file for writing. *)
Inductive write_result :=
| WriteOk
| OpenFails                   (* [open(..., 'w')] raises [OSError] *)
| DumpFails (partial : string).  (* opened and truncated, then [OSError] *)

(** The library and operating-system services [lock.py] calls. *)
Record services := {
  get_hostname : string;                       (* [socket.gethostname()] *)
  fromisoformat : string -> option datetime;   (* [None]: [ValueError] *)
  isoformat : Z -> string;      (* [datetime.now(timezone.utc).isoformat()] *)
  safe_load : string -> option ydoc;           (* [None]: [yaml.YAMLError] *)
  dump : gmap string yval -> string;           (* [yaml.dump] of a dict *)
  replicate : Z -> file_state -> file_state
    (* what the sync daemon and the other hosts do to the lock file while
       this process sleeps the given number of seconds *)
}.

(** What the protocol does, in order. *)
Inductive event :=
| EvWrite (s : string)
| EvWriteFailed
| EvSleep (seconds : Z)
| EvRead (r : option LockInfo).

(** The state a [LockManager] acts on: its own fields and the part of the
    world it touches.  [clock] is the UTC time in microseconds. *)
Record world := {
  clock : Z;
  lock_file : file_state;
  disk : write_result;
  stale_threshold : Z;
  _lock_held : bool;
  trace : list event
}.

Definition set_file (f : file_state) (w : world) : world :=
  {| clock := clock w; lock_file := f; disk := disk w;
     stale_threshold := stale_threshold w;
     _lock_held := _lock_held w; trace := trace w |}.

Definition set_held (b : bool) (w : world) : world :=
  {| clock := clock w; lock_file := lock_file w; disk := disk w;
     stale_threshold := stale_threshold w;
     _lock_held := b; trace := trace w |}.

Definition log_event (e : event) (w : world) : world :=
  {| clock := clock w; lock_file := lock_file w; disk := disk w;
     stale_threshold := stale_threshold w;
     _lock_held := _lock_held w; trace := trace w ++ [e] |}.

Definition advance (seconds : Z) (w : world) : world :=
  {| clock := clock w + seconds * 1000000; lock_file := lock_file w;
     disk := disk w; stale_threshold := stale_threshold w;
     _lock_held := _lock_held w; trace := trace w |}.

(** The result of [heartbeat_age]: a float, either finite (kept in
    microseconds) or [float('inf')]. *)
Inductive age :=
| Finite (us : Z)
| Inf.

(** [a > threshold] for a threshold in whole seconds. *)
Definition age_gt (a : age) (threshold : Z) : bool :=
  match a with
  | Finite us => bool_decide (threshold * 1000000 < us)
  | Inf => true
  end.

Section Manager.
Variable os : services.

(** [LockInfo.is_stale] *)
Definition is_stale (now : Z) (li : LockInfo) (threshold_seconds : Z)
    : Py.outcome Py.cls bool :=
  Py.try_except
    (Py.bind
       (timestamp_age_seconds (fromisoformat os) now (last_heartbeat li))
       (fun a => Py.Ret (age_gt (Finite a) threshold_seconds)))
    [Py.ValueError; Py.TypeError]
    true.

(** [LockInfo.is_own_machine] *)
Definition is_own_machine (li : LockInfo) : bool :=
  bool_decide (hostname li = YStr (get_hostname os)).

(** [LockInfo.heartbeat_age] *)
Definition heartbeat_age (now : Z) (li : LockInfo) : Py.outcome Py.cls age :=
  Py.try_except
    (Py.bind
       (timestamp_age_seconds (fromisoformat os) now (last_heartbeat li))
       (fun a => Py.Ret (Finite a)))
    [Py.ValueError; Py.TypeError]
    Inf.

(** [LockInfo.to_dict] *)
Definition to_dict (li : LockInfo) : gmap string yval :=
  <["hostname" := hostname li]>
  (<["started_at" := started_at li]>
  (<["last_heartbeat" := last_heartbeat li]>
  (<["pid" := pid li]> ∅))).

(** [LockInfo.from_dict] *)
Definition from_dict (data : gmap string yval) : LockInfo :=
  {| hostname := default (YStr "unknown") (data !! "hostname");
     started_at := default (YStr "") (data !! "started_at");
     last_heartbeat := default (YStr "") (data !! "last_heartbeat");
     pid := default (YInt 0) (data !! "pid") |}.

(** [LockManager.read_lock] *)
Definition read_lock (w : world) : option LockInfo :=
  match lock_file w with
  | Absent => None
  | Unreadable => None
  | Contents s =>
      match safe_load os s with
      | None => None
      | Some DOther => None
      | Some (DDict data) =>
          if bool_decide (data = ∅) then None else Some (from_dict data)
      end
  end.

(** The record [write_lock] builds at clock time [now]. *)
Definition fresh_lock (now : Z) (pid : Z) : LockInfo :=
  let timestamp := isoformat os now in
  {| hostname := YStr (get_hostname os);
     started_at := YStr timestamp;
     last_heartbeat := YStr timestamp;
     pid := YInt pid |}.

(** [LockManager.write_lock] *)
Definition write_lock (pid : Z) (w : world) : bool * world :=
  let lock_info := fresh_lock (clock w) pid in
  match disk w with
  | WriteOk =>
      let text := dump os (to_dict lock_info) in
      (true, log_event (EvWrite text)
               (set_held true (set_file (Contents text) w)))
  | OpenFails => (false, log_event EvWriteFailed w)
  | DumpFails partial =>
      (false, log_event EvWriteFailed (set_file (Contents partial) w))
  end.

(** [LockManager.check_lock_status] *)
Definition check_lock_status (w : world)
    : Py.outcome Py.cls (string * option LockInfo) :=
  match read_lock w with
  | None => Py.Ret ("free", None)
  | Some lock_info =>
      if is_own_machine lock_info then
        Py.bind (is_stale (clock w) lock_info (stale_threshold w))
          (fun stale =>
             if stale then Py.Ret ("owned", Some lock_info)
             else Py.Ret ("owned", Some lock_info))
      else
        Py.bind (is_stale (clock w) lock_info (stale_threshold w))
          (fun stale =>
             if stale then Py.Ret ("other_stale", Some lock_info)
             else Py.Ret ("other_active", Some lock_info))
  end.

(** [time.sleep(seconds)]: the clock moves on and the replicated file is
    whatever the daemon made of it in the meantime. *)
Definition sleep (seconds : Z) (w : world) : world :=
  log_event (EvSleep seconds)
    (set_file (replicate os seconds (lock_file w)) (advance seconds w)).

(** [LockManager.acquire_lock] *)
Definition acquire_lock (pid : Z) (race_wait : Z) (w : world) : bool * world :=
  let '(written, w) := write_lock pid w in
  if negb written then (false, w)
  else
    let w := sleep race_wait w in
    let lock_info := read_lock w in
    let w := log_event (EvRead lock_info) w in
    match lock_info with
    | None => (false, w)
    | Some li =>
        if bool_decide (hostname li ≠ YStr (get_hostname os))
        then (false, set_held false w)
        else (true, w)
    end.

(** *** Vocabulary of the specification *)


(** A [last_heartbeat] that [parse_timestamp] cannot parse: not a
    string, or a string [fromisoformat] rejects as it is and with every
    [Z] spelled [+00:00]. *)
Definition unparseable (ts : yval) : Prop :=
  match ts with
  | YStr s =>
      fromisoformat os s = None /\
      fromisoformat os (replace "Z"%char "+00:00" s) = None
  | _ => True
  end.

End Manager.

End Lock.

(* ===================================================================== *)
(** * integrity.py *)
(* ===================================================================== *)

Module Integrity.

(** Minecraft region files use 4096-byte sectors. *)
Definition SECTOR_SIZE : N := 4096.

(** [file_path.stat()]: the size in bytes, or the text of the [OSError]. *)
Inductive stat_result :=
| StSize (st_size : N)
| StOSError (msg : string).

Record RegionFileIssue := {
  file : string;
  issue_type : string;   (* "zero_byte", "truncated", "unreadable" *)
  details : string
}.

Record IntegrityReport := {
  world_folder : string;
  total_files : nat;
  checked_files : nat;
  issues : list RegionFileIssue;
  error : option string
}.

(** [IntegrityReport.has_issues] and [is_healthy] *)
Definition has_issues (r : IntegrityReport) : bool :=
  (0 <? length (issues r))%nat || bool_decide (error r ≠ None).

Definition is_healthy (r : IntegrityReport) : bool := negb (has_issues r).

(** What a scan observes of the file system: whether the world folder
    exists, and for every region folder [find_region_folders] returns,
    the [*.mca] entries [glob] yields with the result of [stat] on each. *)
Record observation := {
  world_exists : bool;
  region_folders : list (list (string * stat_result))
}.

Section Scanner.
(** [utils.format_size], a float formatter. *)
Variable format_size : N -> string.

(** [check_region_file] *)
Definition check_region_file (file_path : string) (st : stat_result)
    : option RegionFileIssue :=
  match st with
  | StSize size =>
      if (size =? 0)%N then
        Some {| file := file_path; issue_type := "zero_byte";
                details := "File is empty (0 bytes)" |}
      else if (size <? SECTOR_SIZE * 2)%N then
        Some {| file := file_path; issue_type := "truncated";
                details := "File too small (" +:+ format_size size
                           +:+ ", expected at least 8KB)" |}
      else if negb (size mod SECTOR_SIZE =? 0)%N then
        Some {| file := file_path; issue_type := "truncated";
                details := "Size (" +:+ format_size size
                           +:+ ") not a multiple of 4096 bytes" |}
      else None
  | StOSError e =>
      Some {| file := file_path; issue_type := "unreadable"; details := e |}
  end.

(** The body of the inner loop of [check_world_integrity]. *)
Definition scan_file (report : IntegrityReport) (f : string * stat_result)
    : IntegrityReport :=
  let report :=
    {| world_folder := world_folder report;
       total_files := S (total_files report);
       checked_files := S (checked_files report);
       issues := issues report;
       error := error report |} in
  match check_region_file (fst f) (snd f) with
  | Some issue =>
      {| world_folder := world_folder report;
         total_files := total_files report;
         checked_files := checked_files report;
         issues := issues report ++ [issue];
         error := error report |}
  | None => report
  end.

Definition with_error (msg : string) (report : IntegrityReport)
    : IntegrityReport :=
  {| world_folder := world_folder report;
     total_files := total_files report;
     checked_files := checked_files report;
     issues := issues report;
     error := Some msg |}.

(** [check_world_integrity] *)
Definition check_world_integrity (folder : string) (obs : observation)
    : IntegrityReport :=
  let report :=
    {| world_folder := folder; total_files := 0; checked_files := 0;
       issues := []; error := None |} in
  if negb (world_exists obs) then
    with_error "World folder does not exist" report
  else
    match region_folders obs with
    | [] =>
        with_error "No region folders found (world may be empty or invalid)"
          report
    | folders =>
        fold_left (fun report region_folder =>
                     fold_left scan_file region_folder report)
                  folders report
    end.
End Scanner.

End Integrity.

(* ===================================================================== *)
(** * server.py *)
(* ===================================================================== *)

Module Server.

(** What [self._process.kill()] followed by [wait(timeout=5)] does. *)
Inductive kill_result :=
| KillOk                 (* the child is reaped within five seconds *)
| KillTimeoutExpired     (* [wait] raises [subprocess.TimeoutExpired] *)
| KillOSError.           (* [kill] raises [OSError] *)

Inductive event :=
| EvSend (line : string)    (* a line written to the child's stdin *)
| EvExit                    (* the child exits by itself *)
| EvKill.                   (* [Popen.kill()] is called *)

(** The supervisor's view of the child and how the child will react. *)
Record process := {
  started : bool;                (* [self._process is not None] *)
  alive : bool;                  (* [poll() is None] *)
  pipe_ok : bool;                (* writing to stdin succeeds *)
  exit_after_stop : option Z;
    (* seconds the child needs to exit once told to stop; [None]: never *)
  on_kill : kill_result;
  trace : list event
}.

Definition log_event (e : event) (p : process) : process :=
  {| started := started p; alive := alive p; pipe_ok := pipe_ok p;
     exit_after_stop := exit_after_stop p; on_kill := on_kill p;
     trace := trace p ++ [e] |}.

Definition exited (p : process) : process :=
  {| started := started p; alive := false; pipe_ok := pipe_ok p;
     exit_after_stop := exit_after_stop p; on_kill := on_kill p;
     trace := trace p |}.

(** [MinecraftServer.is_running] *)
Definition is_running (p : process) : bool := started p && alive p.

(** [MinecraftServer.send_command] *)
Definition send_command (command : string) (p : process) : bool * process :=
  if negb (is_running p) || negb (started p) then (false, p)
  else if pipe_ok p then (true, log_event (EvSend command) p)
  else (false, p).

(** [MinecraftServer.kill] *)
Definition kill (p : process) : bool * process :=
  if negb (is_running p) || negb (started p) then (true, p)
  else
    match on_kill p with
    | KillOk => (true, exited (log_event EvKill p))
    | KillTimeoutExpired => (false, log_event EvKill p)
    | KillOSError => (false, log_event EvKill p)
    end.

(** [self._process.wait(timeout=timeout)] after the stop command:
    [true] when the child exits in time, [false] for [TimeoutExpired]. *)
Definition wait (timeout : Z) (p : process) : bool * process :=
  match exit_after_stop p with
  | Some t => if (t <=? timeout)%Z then (true, exited (log_event EvExit p))
              else (false, p)
  | None => (false, p)
  end.

(** [MinecraftServer.stop] *)
Definition stop (timeout : Z) (p : process) : bool * process :=
  if negb (is_running p) then (true, p)
  else
    let '(sent, p) := send_command "stop" p in
    if negb sent then kill p
    else
      let '(done, p) := wait timeout p in
      if done then (true, p)
      else kill p.

End Server.

(* ===================================================================== *)
(** * syncthing.py *)
(* ===================================================================== *)

Module Syncthing.

(** [URLError.reason]: an exception instance or a string. *)
Inductive reason :=
| ReasonExc (c : Py.cls) (text : string)
| ReasonStr (s : string).

(** Exception instances with the attributes [_request] reads. *)
Inductive exn :=
| EURLError (r : reason)
| EHTTPError (code : Z) (msg : string)
| EPlain (c : Py.cls) (msg : string).

Definition class_of (e : exn) : Py.cls :=
  match e with
  | EURLError _ => Py.URLError
  | EHTTPError _ _ => Py.HTTPError
  | EPlain c _ => c
  end.

Definition isinstance (e : exn) (c : Py.cls) : bool :=
  Py.issubclass (class_of e) c.

(** [e.reason]; for an [HTTPError] the property returns its message. *)
Definition reason_of (e : exn) : reason :=
  match e with
  | EURLError r => r
  | EHTTPError _ msg => ReasonStr msg
  | EPlain _ msg => ReasonStr msg
  end.

Definition reason_text (r : reason) : string :=
  match r with
  | ReasonExc _ text => text
  | ReasonStr s => s
  end.

(** What the network does with one request. *)
Inductive wire :=
| ConnectionRefused (text : string)
| ConnectFails (c : Py.cls) (text : string)  (* other error while connecting *)
| ReadTimesOut                               (* no reply within [timeout] *)
| ReadFails (c : Py.cls) (text : string)     (* the connection breaks *)
| Reply (status : Z) (phrase : string) (body : option string).
    (* the final reply; [body] is [None] when it is not valid UTF-8 *)

(** The response object [urlopen] returns. *)
Record response := {
  status : Z;
  content : option string
}.

(** [urllib.request.urlopen]: errors while connecting are wrapped in
    [URLError]; errors while the reply is read (a timeout, a reset
    connection) surface as they are; a reply outside 200..299 is raised
    as [HTTPError] by the default error processor. *)
Definition urlopen (net : wire) : Py.outcome exn response :=
  match net with
  | ConnectionRefused text =>
      Py.Raise (EURLError (ReasonExc Py.ConnectionRefusedError text))
  | ConnectFails c text => Py.Raise (EURLError (ReasonExc c text))
  | ReadTimesOut => Py.Raise (EPlain Py.TimeoutError "timed out")
  | ReadFails c text => Py.Raise (EPlain c text)
  | Reply st phrase body =>
      if (200 <=? st)%Z && (st <? 300)%Z
      then Py.Ret {| status := st; content := body |}
      else Py.Raise (EHTTPError st phrase)
  end.

(** An [except] clause: the class it names and its body. *)
Definition handler (A : Type) : Type := Py.cls * (exn -> Py.outcome exn A).

(** The clauses of a [try] statement are tried in order; the first whose
    class the exception is an instance of runs, and no other. *)
Fixpoint dispatch {A} (clauses : list (handler A)) (e : exn) : Py.outcome exn A :=
  match clauses with
  | [] => Py.Raise e
  | (c, body) :: rest => if isinstance e c then body e else dispatch rest e
  end.

Definition try_ {A} (body : Py.outcome exn A) (clauses : list (handler A))
    : Py.outcome exn A :=
  match body with
  | Py.Ret a => Py.Ret a
  | Py.Raise e => dispatch clauses e
  end.

Section Client.
(** Parsed JSON values, [json.loads] ([None]: [JSONDecodeError]) and [{}]. *)
Variable json : Type.
Variable json_loads : string -> option json.
Variable empty_object : json.

(** [self.url] *)
Variable url : string.

(** [SyncthingClient._request] against a network that answers [net]. *)
Definition _request (method endpoint : string) (net : wire)
    : Py.outcome exn json :=
  try_
    (Py.bind (urlopen net) (fun response =>
       if (status response =? 200)%Z then
         match content response with
         | None => Py.Raise (EPlain Py.UnicodeDecodeError "invalid utf-8")
         | Some content =>
             if bool_decide (content ≠ "") then
               match json_loads content with
               | Some v => Py.Ret v
               | None => Py.Raise (EPlain Py.JSONDecodeError content)
               end
             else Py.Ret empty_object
         end
       else
         Py.Raise (EPlain Py.SyncthingError
                     ("API returned status " +:+ pretty (status response)))))
    [ (Py.URLError, fun e =>
         match reason_of e with
         | ReasonExc c _ =>
             if Py.issubclass c Py.ConnectionRefusedError then
               Py.Raise (EPlain Py.SyncthingUnavailable
                           ("Syncthing not reachable at " +:+ url))
             else
               Py.Raise (EPlain Py.SyncthingUnavailable
                           ("Could not connect to Syncthing: "
                            +:+ reason_text (reason_of e)))
         | ReasonStr _ =>
             Py.Raise (EPlain Py.SyncthingUnavailable
                         ("Could not connect to Syncthing: "
                          +:+ reason_text (reason_of e)))
         end);
      (Py.HTTPError, fun e =>
         match e with
         | EHTTPError code msg =>
             Py.Raise (EPlain Py.SyncthingError
                         ("API error: " +:+ pretty code +:+ " " +:+ msg))
         | _ => Py.Raise (EPlain Py.SyncthingError "API error")
         end);
      (Py.JSONDecodeError, fun e =>
         Py.Raise (EPlain Py.SyncthingError "Invalid JSON response"));
      (Py.TimeoutError, fun e =>
         Py.Raise (EPlain Py.SyncthingUnavailable
                     "Connection to Syncthing timed out")) ].
End Client.

End Syncthing.

(* ===================================================================== *)
(** * backup.py *)
(* ===================================================================== *)

Module Backup.

(** ** The file system

    All of [backup.py] works inside two directories: the parent of the
    world folder, whose entries it renames, removes and extracts into, and
    the backup folder, which holds the archives.  A directory entry is a
    regular file or a directory; a directory is a finite map from relative
    paths (lists of components, never empty) to nodes. *)

Inductive node :=
| Dir
| File (content : string).

#[global] Instance node_eq_dec : EqDecision node.
Proof. solve_decision. Defined.

Inductive entry :=
| EFile (content : string)
| EDir (t : gmap (list string) node).

(** One archive member: its name is [arc_top/arc_rest...]. *)
Record member := {
  arc_top : string;
  arc_rest : list string;
  arc_data : string
}.

Record zipfile := {
  members : list member;
  st_size : N
}.

Record BackupInfo := {
  path : string;        (* file name inside the backup folder *)
  timestamp : Z;        (* microseconds, local time *)
  size : N
}.

Record state := {
  siblings : gmap string entry;         (* [world_folder.parent] *)
  backup_folder : gmap string zipfile   (* empty when it does not exist *)
}.

Definition set_siblings (d : gmap string entry) (st : state) : state :=
  {| siblings := d; backup_folder := backup_folder st |}.

Definition set_backups (b : gmap string zipfile) (st : state) : state :=
  {| siblings := siblings st; backup_folder := b |}.

(** Library services and the manager's configuration. *)
Record services := {
  strptime : string -> option Z;
    (* [datetime.strptime(s, "%Y-%m-%d_%H-%M-%S")]; [None]: [ValueError] *)
  strftime : Z -> string;
    (* [datetime.strftime("%Y-%m-%d_%H-%M-%S")] *)
  deflate_size : list member -> N;      (* size of the written archive *)
  unlink_ok : string -> bool;           (* [False]: [unlink] raises [OSError] *)
  auto_prune : bool;
  keep_minimum : Z;
  keep_days : Z
}.

Definition BACKUP_PREFIX : string := "backup_".
Definition BACKUP_SUFFIX : string := ".zip".

(** [str.startswith], [str.endswith] and the slice [s[i:-j]]. *)
Definition startswith (s p : string) : bool := String.prefix p s.

Definition endswith (s p : string) : bool :=
  (String.length p <=? String.length s)%nat &&
  String.eqb
    (String.substring (String.length s - String.length p) (String.length p) s)
    p.

Definition slice (i j : nat) (s : string) : string :=
  String.substring i (String.length s - j - i) s.

(** What [zipfile] and the file system below it raise while an archive
    is read or written. *)
Inductive zip_error :=
| ZipOSError               (* disk full, permission denied, ... *)
| ZipBadZipFile            (* not a zip file, bad CRC *)
| ZipZlibError             (* corrupt compressed data *)
| ZipRuntimeError          (* encrypted member, no password *)
| ZipNotImplementedError   (* unsupported compression method *)
| ZipKeyboardInterrupt.    (* the operator interrupts *)

Definition zip_class (c : zip_error) : Py.cls :=
  match c with
  | ZipOSError => Py.OSError
  | ZipBadZipFile => Py.BadZipFile
  | ZipZlibError => Py.ZlibError
  | ZipRuntimeError => Py.RuntimeError
  | ZipNotImplementedError => Py.NotImplementedError
  | ZipKeyboardInterrupt => Py.KeyboardInterrupt
  end.

(** An injected fault: the error raised when the archive is opened, or
    when the member with the given index is read or written. *)
Inductive fault :=
| NoFault
| OpenFault (c : zip_error)
| MemberFault (i : nat) (c : zip_error).

(** [path.exists()] *)
Definition exists_ (name : string) (d : gmap string entry) : bool :=
  bool_decide (is_Some (d !! name)).

(** [shutil.rmtree]: removes a directory with all it holds; on a regular
    file or a missing path it raises an [OSError]. *)
Definition rmtree (name : string) (d : gmap string entry)
    : Py.outcome Py.cls (gmap string entry) :=
  match d !! name with
  | Some (EDir _) => Py.Ret (delete name d)
  | Some (EFile _) => Py.Raise Py.OSError
  | None => Py.Raise Py.OSError
  end.

(** [Path.rename] (POSIX [rename(2)]): the destination may be absent, a
    file replaced by a file, or an empty directory replaced by a
    directory. *)
Definition rename (src dst : string) (d : gmap string entry)
    : Py.outcome Py.cls (gmap string entry) :=
  match d !! src with
  | None => Py.Raise Py.OSError
  | Some e =>
      let moved := <[dst := e]> (delete src d) in
      match d !! dst, e with
      | None, _ => Py.Ret moved
      | Some (EFile _), EFile _ => Py.Ret moved
      | Some (EDir t), EDir _ =>
          if bool_decide (t = ∅) then Py.Ret moved else Py.Raise Py.OSError
      | Some _, _ => Py.Raise Py.OSError
      end
  end.

(** The proper, non-empty prefixes of a path, shortest first: the
    directories [extract] creates before it writes the file. *)
Fixpoint proper_prefixes (p : list string) : list (list string) :=
  match p with
  | [] => []
  | x :: q =>
      match q with
      | [] => []
      | _ => [x] :: map (cons x) (proper_prefixes q)
      end
  end.

(** [os.makedirs(..., exist_ok=True)] along the given prefixes. *)
Fixpoint mkdirs (ps : list (list string)) (t : gmap (list string) node)
    : Py.outcome Py.cls (gmap (list string) node) :=
  match ps with
  | [] => Py.Ret t
  | p :: ps' =>
      match t !! p with
      | Some (File _) => Py.Raise Py.OSError
      | Some Dir => mkdirs ps' t
      | None => mkdirs ps' (<[p := Dir]> t)
      end
  end.

(** Writing one file at a relative path below a directory. *)
Definition write_file (rest : list string) (data : string)
    (t : gmap (list string) node) : Py.outcome Py.cls (gmap (list string) node) :=
  Py.bind (mkdirs (proper_prefixes rest) t) (fun t =>
    match t !! rest with
    | Some Dir => Py.Raise Py.OSError
    | _ => Py.Ret (<[rest := File data]> t)
    end).

(** [ZipFile.extract] of one member into a directory. *)
Definition extract_member (m : member) (d : gmap string entry)
    : Py.outcome Py.cls (gmap string entry) :=
  match arc_rest m with
  | [] =>
      match d !! arc_top m with
      | Some (EDir _) => Py.Raise Py.OSError
      | _ => Py.Ret (<[arc_top m := EFile (arc_data m)]> d)
      end
  | rest =>
      match d !! arc_top m with
      | Some (EFile _) => Py.Raise Py.OSError
      | Some (EDir t) =>
          Py.bind (write_file rest (arc_data m) t) (fun t' =>
            Py.Ret (<[arc_top m := EDir t']> d))
      | None =>
          Py.bind (write_file rest (arc_data m) ∅) (fun t' =>
            Py.Ret (<[arc_top m := EDir t']> d))
      end
  end.

(** Extracting the members from index [i] on; what was written before an
    exception stays written. *)
Fixpoint extract_from (i : nat) (ms : list member) (f : fault)
    (d : gmap string entry) : Py.outcome Py.cls unit * gmap string entry :=
  match ms with
  | [] => (Py.Ret tt, d)
  | m :: ms' =>
      match f with
      | MemberFault j c =>
          if bool_decide (i = j) then (Py.Raise (zip_class c), d)
          else
            match extract_member m d with
            | Py.Ret d' => extract_from (S i) ms' f d'
            | Py.Raise e => (Py.Raise e, d)
            end
      | _ =>
          match extract_member m d with
          | Py.Ret d' => extract_from (S i) ms' f d'
          | Py.Raise e => (Py.Raise e, d)
          end
      end
  end.

(** [with zipfile.ZipFile(path, 'r') as zf: zf.extractall(dest)] *)
Definition extractall (z : zipfile) (f : fault) (d : gmap string entry)
    : Py.outcome Py.cls unit * gmap string entry :=
  match f with
  | OpenFault c => (Py.Raise (zip_class c), d)
  | _ => extract_from 0 (members z) f d
  end.

(** The regular files below a directory, with their contents:
    [rglob("*")] filtered by [is_file()]. *)
Definition file_content (n : node) : option string :=
  match n with
  | File c => Some c
  | Dir => None
  end.

Definition rglob_files (t : gmap (list string) node) : list (list string * string) :=
  map_to_list (omap file_content t).

(** Stable insertion into a list sorted by timestamp, newest first. *)
Fixpoint insert_newest_first (b : BackupInfo) (l : list BackupInfo)
    : list BackupInfo :=
  match l with
  | [] => [b]
  | x :: l' =>
      if (timestamp x <? timestamp b)%Z then b :: x :: l'
      else x :: insert_newest_first b l'
  end.

(** [list.sort(key=lambda b: b.timestamp, reverse=True)] *)
Definition sort_newest_first (l : list BackupInfo) : list BackupInfo :=
  fold_left (fun acc b => insert_newest_first b acc) l [].

Section Manager.
Variable sv : services.

(** [BackupManager._parse_backup_filename] *)
Definition _parse_backup_filename (filename : string) : option Z :=
  if negb (startswith filename BACKUP_PREFIX) then None
  else if negb (endswith filename BACKUP_SUFFIX) then None
  else
    let timestamp_str :=
      slice (String.length BACKUP_PREFIX) (String.length BACKUP_SUFFIX)
            filename in
    strptime sv timestamp_str.

(** [BackupManager.list_backups] *)
Definition list_backups (st : state) : list BackupInfo :=
  let backups :=
    omap (fun '(name, z) =>
            match _parse_backup_filename name with
            | None => None
            | Some ts => Some {| path := name; timestamp := ts;
                                 size := st_size z |}
            end)
         (map_to_list (backup_folder st)) in
  sort_newest_first backups.

(** [BackupManager.get_latest_backup] *)
Definition get_latest_backup (st : state) : option BackupInfo :=
  head (list_backups st).

(** The archive members [create_backup] writes for a world folder. *)
Definition archive_of (world : string) (e : entry) : list member :=
  match e with
  | EDir t =>
      map (fun '(p, c) => {| arc_top := world; arc_rest := p; arc_data := c |})
          (rglob_files t)
  | EFile _ => []
  end.

(** [BackupManager.create_backup] at local time [now]; [f] is a fault
    raised while the archive is written.  [ZipFile.__exit__] closes the
    archive also when the body raises, so an exception the method does
    not catch leaves the members written so far. *)
Definition create_backup (now : Z) (world : string) (f : fault) (st : state)
    : Py.outcome Py.cls BackupInfo * state :=
  match siblings st !! world with
  | None => (Py.Raise Py.BackupError, st)
  | Some e =>
      let timestamp := strftime sv now in
      let backup_name := BACKUP_PREFIX +:+ timestamp +:+ BACKUP_SUFFIX in
      let ms := archive_of world e in
      let hit : option (option (list member) * Py.cls) :=
        match f with
        | NoFault => None
        | OpenFault c => Some (None, zip_class c)
        | MemberFault i c =>
            if (i <? length ms)%nat then Some (Some (take i ms), zip_class c)
            else None
        end in
      match hit with
      | Some (written, c) =>
          let folder :=
            match written with
            | Some l => <[backup_name := {| members := l;
                                            st_size := deflate_size sv l |}]>
                          (backup_folder st)
            | None => backup_folder st
            end in
          if Py.issubclass_any c [Py.OSError; Py.BadZipFile] then
            (* clean up partial backup *)
            let folder :=
              if bool_decide (is_Some (folder !! backup_name))
                 && unlink_ok sv backup_name
              then delete backup_name folder else folder in
            (Py.Raise Py.BackupError, set_backups folder st)
          else (Py.Raise c, set_backups folder st)
      | None =>
          let z := {| members := ms; st_size := deflate_size sv ms |} in
          let st := set_backups (<[backup_name := z]> (backup_folder st)) st in
          match strptime sv timestamp with
          | Some ts => (Py.Ret {| path := backup_name; timestamp := ts;
                                  size := st_size z |}, st)
          | None => (Py.Raise Py.ValueError, st)
          end
      end
  end.

(** The safety rename at the start of [restore_backup]: returns
    [old_world]. *)
Definition safety_rename (target : string) (d : gmap string entry)
    : Py.outcome Py.cls (option string) * gmap string entry :=
  if exists_ target d then
    let old_world := target +:+ ".old" in
    let removed :=
      if exists_ old_world d then rmtree old_world d else Py.Ret d in
    match removed with
    | Py.Raise e => (Py.Raise e, d)
    | Py.Ret d1 =>
        match rename target old_world d1 with
        | Py.Raise e => (Py.Raise e, d1)
        | Py.Ret d2 => (Py.Ret (Some old_world), d2)
        end
    end
  else (Py.Ret None, d).

(** "Remove old world backup", the last step of the [try] body. *)
Definition remove_old (old_world : option string) (d : gmap string entry)
    : Py.outcome Py.cls unit * gmap string entry :=
  match old_world with
  | Some old =>
      if exists_ old d then
        match rmtree old d with
        | Py.Ret d' => (Py.Ret tt, d')
        | Py.Raise e => (Py.Raise e, d)
        end
      else (Py.Ret tt, d)
  | None => (Py.Ret tt, d)
  end.

(** "Try to restore old world", the body of the [except] clause up to
    the final [raise]. *)
Definition rollback (old_world : option string) (target : string)
    (d : gmap string entry) : Py.outcome Py.cls unit * gmap string entry :=
  match old_world with
  | Some old =>
      if exists_ old d then
        let removed := if exists_ target d then rmtree target d else Py.Ret d in
        match removed with
        | Py.Raise e => (Py.Raise e, d)
        | Py.Ret d1 =>
            match rename old target d1 with
            | Py.Raise e => (Py.Raise e, d1)
            | Py.Ret d2 => (Py.Ret tt, d2)
            end
        end
      else (Py.Ret tt, d)
  | None => (Py.Ret tt, d)
  end.

(** [BackupManager.restore_backup]; [target] names an entry of the
    directory the state describes. *)
Definition restore_backup (backup : BackupInfo) (target : string) (f : fault)
    (st : state) : Py.outcome Py.cls bool * state :=
  match backup_folder st !! path backup with
  | None => (Py.Raise Py.BackupError, st)
  | Some z =>
      match safety_rename target (siblings st) with
      | (Py.Raise e, d) => (Py.Raise e, set_siblings d st)
      | (Py.Ret old_world, d) =>
          let '(r, d) :=
            match extractall z f d with
            | (Py.Ret _, d) => remove_old old_world d
            | (Py.Raise e, d) => (Py.Raise e, d)
            end in
          match r with
          | Py.Ret _ => (Py.Ret true, set_siblings d st)
          | Py.Raise e =>
              if Py.issubclass_any e [Py.OSError; Py.BadZipFile] then
                match rollback old_world target d with
                | (Py.Ret _, d) => (Py.Raise Py.BackupError, set_siblings d st)
                | (Py.Raise e', d) => (Py.Raise e', set_siblings d st)
                end
              else (Py.Raise e, set_siblings d st)
          end
      end
  end.

(** The loop of [prune_backups]: [total] is [len(backups)]. *)
Fixpoint prune_loop (cutoff : Z) (total : nat) (backups deleted : list BackupInfo)
    (folder : gmap string zipfile) : list BackupInfo * gmap string zipfile :=
  match backups with
  | [] => (deleted, folder)
  | backup :: rest =>
      if (Z.of_nat total - Z.of_nat (length deleted) <=? keep_minimum sv)%Z
      then (deleted, folder)
      else if (timestamp backup <? cutoff)%Z then
        if unlink_ok sv (path backup) then
          prune_loop cutoff total rest (deleted ++ [backup])
                     (delete (path backup) folder)
        else prune_loop cutoff total rest deleted folder
      else prune_loop cutoff total rest deleted folder
  end.

(** [BackupManager.prune_backups] at local time [now] (microseconds). *)
Definition prune_backups (now : Z) (st : state) : list BackupInfo * state :=
  if negb (auto_prune sv) then ([], st)
  else
    let backups := list_backups st in
    if (Z.of_nat (length backups) <=? keep_minimum sv)%Z then ([], st)
    else
      let cutoff := (now - keep_days sv * 86400 * 1000000)%Z in
      let '(deleted, folder) :=
        prune_loop cutoff (length backups) backups [] (backup_folder st) in
      (deleted, set_backups folder st).

(** *** Vocabulary of the specification *)

(** A directory tree: the root itself is not an entry, and every proper
    ancestor of an entry is a directory. *)
Definition well_formed (t : gmap (list string) node) : Prop :=
  t !! [] = None /\
  forall q p, is_Some (t !! q) -> p ∈ proper_prefixes q -> t !! p = Some Dir.

(** Every directory of the tree, the root included, has a regular file
    somewhere below it. *)
Definition populated (t : gmap (list string) node) : Prop :=
  (exists q c, t !! q = Some (File c)) /\
  forall p, t !! p = Some Dir ->
    exists q c, t !! q = Some (File c) /\ p ∈ proper_prefixes q.

(** Members as [create_backup] writes them for the folder [world]. *)
Definition below (world : string) (m : member) : Prop :=
  arc_top m = world /\ arc_rest m ≠ [].

(** The partly restored target is missing or a directory, never a
    regular file. *)
Definition absent_or_dir (o : option entry) : Prop :=
  match o with
  | Some (EFile _) => False
  | _ => True
  end.

(** Executable versions of the two predicates. *)
Definition well_formedb (t : gmap (list string) node) : bool :=
  bool_decide (t !! [] = None) &&
  forallb (fun '(q, _) =>
             forallb (fun p => bool_decide (t !! p = Some Dir))
                     (proper_prefixes q))
          (map_to_list t).

Definition populatedb (t : gmap (list string) node) : bool :=
  negb (bool_decide (rglob_files t = [])) &&
  forallb (fun '(p, n) =>
             match n with
             | File _ => true
             | Dir => existsb (fun '(q, _) =>
                                 bool_decide (p ∈ proper_prefixes q))
                              (rglob_files t)
             end)
          (map_to_list t).

(** The class an injected fault raises. *)
Definition fault_class (f : fault) : option Py.cls :=
  match f with
  | NoFault => None
  | OpenFault c => Some (zip_class c)
  | MemberFault _ c => Some (zip_class c)
  end.



(** Retention as the specification words it: after pruning, no retained
    snapshot is both older than [keep_days] and outside the
    [keep_minimum] newest of the snapshots there were. *)
Definition retention (now : Z) (st : state) : Prop :=
  let before := list_backups st in
  let after := list_backups (snd (prune_backups now st)) in
  forall b, b ∈ after ->
    ~ (timestamp b < now - keep_days sv * 86400 * 1000000 /\
       b ∉ take (Z.to_nat (keep_minimum sv)) before).
End Manager.

End Backup.

(* ===================================================================== *)
(** * Concrete services for the examples *)
(* ===================================================================== *)

Module Examples.
Import Utils.

(** A line-oriented stand-in for the YAML codec: one [key: value] per
    line, integers in decimal.  It is used by the examples only. *)
Definition newline : string := String (ascii_of_nat 10) "".

Definition show (v : yval) : string :=
  match v with
  | YStr s => s
  | YInt z => pretty z
  | YBool true => "true"
  | YBool false => "false"
  | YNull => "null"
  | YOther => "?"
  end.

Definition dump_lines (d : gmap string yval) : string :=
  fold_right (fun '(k, v) acc => k +:+ ": " +:+ show v +:+ newline +:+ acc)
             "" (map_to_list d).

Fixpoint split_lines (cur : string) (s : string) : list string :=
  match s with
  | EmptyString => if String.eqb cur "" then [] else [cur]
  | String c s' =>
      if Ascii.eqb c (ascii_of_nat 10) then cur :: split_lines "" s'
      else split_lines (cur +:+ String c "") s'
  end.

Definition load_line (l : string) : option (string * yval) :=
  match String.index 0 ": " l with
  | Some i =>
      let v := String.substring (i + 2) (String.length l - (i + 2)) l in
      Some (String.substring 0 i l,
            if String.eqb v "0" then YInt 0 else YStr v)
  | None => None
  end.

Definition load_lines (s : string) : option Lock.ydoc :=
  match split_lines "" s with
  | [] => Some Lock.DOther
  | ls =>
      match mapM load_line ls with
      | Some kvs => Some (Lock.DDict (list_to_map kvs))
      | None => None
      end
  end.

(** A parser that knows the two timestamps the examples use. *)
Definition fromisoformat_ex (s : string) : option datetime :=
  if String.eqb s "2024-04-10T12:00:00+00:00"
  then Some {| wall := 1712750400000000; tzinfo := Some 0 |}
  else if String.eqb s "2024-04-10T12:00:10+00:00"
  then Some {| wall := 1712750410000000; tzinfo := Some 0 |}
  else None.

Definition isoformat_ex (now : Z) : string :=
  if (now =? 1712750400000000)%Z then "2024-04-10T12:00:00+00:00"
  else if (now =? 1712750410000000)%Z then "2024-04-10T12:00:10+00:00"
  else "1970-01-01T00:00:00+00:00".

(** Host [alpha]; nothing touches the lock file while it sleeps. *)
Definition alpha : Lock.services :=
  {| Lock.get_hostname := "alpha";
     Lock.fromisoformat := fromisoformat_ex;
     Lock.isoformat := isoformat_ex;
     Lock.safe_load := load_lines;
     Lock.dump := dump_lines;
     Lock.replicate := fun _ f => f |}.

(** The record host [beta] wrote at 12:00:00. *)
Definition beta_lock : Lock.LockInfo :=
  {| Lock.hostname := YStr "beta";
     Lock.started_at := YStr "2024-04-10T12:00:00+00:00";
     Lock.last_heartbeat := YStr "2024-04-10T12:00:00+00:00";
     Lock.pid := YInt 0 |}.

(** At 12:00:10 the lock file holds [beta]'s ten-second-old record. *)
Definition beta_holds : Lock.world :=
  {| Lock.clock := 1712750410000000;
     Lock.lock_file := Lock.Contents (dump_lines (Lock.to_dict beta_lock));
     Lock.disk := Lock.WriteOk;
     Lock.stale_threshold := 60;
     Lock._lock_held := false;
     Lock.trace := [] |}.


(** A record whose heartbeat is the empty string. *)
Definition no_heartbeat : Lock.LockInfo :=
  {| Lock.hostname := YStr "beta";
     Lock.started_at := YStr "";
     Lock.last_heartbeat := YStr "";
     Lock.pid := YInt 0 |}.

(** A running child that ignores the stop command and dies when killed. *)
Definition hung_child : Server.process :=
  {| Server.started := true;
     Server.alive := true;
     Server.pipe_ok := true;
     Server.exit_after_stop := None;
     Server.on_kill := Server.KillOk;
     Server.trace := [] |}.

(** A running child that exits two seconds after the stop command. *)
Definition obedient_child : Server.process :=
  {| Server.started := true;
     Server.alive := true;
     Server.pipe_ok := true;
     Server.exit_after_stop := Some 2;
     Server.on_kill := Server.KillOk;
     Server.trace := [] |}.

(** The daemon answers 404. *)
Definition not_found : Syncthing.wire :=
  Syncthing.Reply 404 "Not Found" (Some "").

(** *** Backups *)

(** Decimal digits and zero-padded fields. *)
Definition digit (c : ascii) : option Z :=
  let n := Z.of_nat (nat_of_ascii c) in
  if (48 <=? n)%Z && (n <=? 57)%Z then Some (n - 48)%Z else None.

Fixpoint number (acc : Z) (s : string) : option Z :=
  match s with
  | EmptyString => Some acc
  | String c s' =>
      match digit c with
      | Some d => number (acc * 10 + d) s'
      | None => None
      end
  end.

Definition field (i n : nat) (s : string) : option Z :=
  number 0 (String.substring i n s).

Definition char_at (i : nat) (s : string) (c : ascii) : bool :=
  match String.get i s with
  | Some c' => Ascii.eqb c c'
  | None => false
  end.

(** Days since 1970-01-01 of a proleptic Gregorian date. *)
Definition days_from_civil (y m d : Z) : Z :=
  let y := if (m <=? 2)%Z then y - 1 else y in
  let era := y `div` 400 in
  let yoe := y - era * 400 in
  let doy := (153 * (if (2 <? m)%Z then m - 3 else m + 9) + 2) `div` 5 + d - 1 in
  let doe := yoe * 365 + yoe `div` 4 - yoe `div` 100 + doy in
  era * 146097 + doe - 719468.

(** The inverse: year, month and day of a day number. *)
Definition civil_from_days (z : Z) : Z * Z * Z :=
  let z := z + 719468 in
  let era := z `div` 146097 in
  let doe := z - era * 146097 in
  let yoe := (doe - doe `div` 1460 + doe `div` 36524 - doe `div` 146096)
               `div` 365 in
  let doy := doe - (365 * yoe + yoe `div` 4 - yoe `div` 100) in
  let mp := (5 * doy + 2) `div` 153 in
  let d := doy - (153 * mp + 2) `div` 5 + 1 in
  let m := if (mp <? 10)%Z then mp + 3 else mp - 9 in
  let y := yoe + era * 400 in
  (if (m <=? 2)%Z then y + 1 else y, m, d).

Definition days_in_month (y m : Z) : Z :=
  days_from_civil (if (m =? 12)%Z then y + 1 else y)
                  (if (m =? 12)%Z then 1 else m + 1) 1
  - days_from_civil y m 1.

(** [strptime] with the format [%Y-%m-%d_%H-%M-%S] on zero-padded
    input, the only kind [strftime] produces; microseconds since 1970. *)
Definition strptime_padded (s : string) : option Z :=
  if negb (String.length s =? 19)%nat then None
  else if negb (char_at 4 s "-" && char_at 7 s "-" && char_at 10 s "_"
                && char_at 13 s "-" && char_at 16 s "-") then None
  else
    y ← field 0 4 s; m ← field 5 2 s; d ← field 8 2 s;
    h ← field 11 2 s; mi ← field 14 2 s; sec ← field 17 2 s;
    if (1 <=? y)%Z && (1 <=? m)%Z && (m <=? 12)%Z && (1 <=? d)%Z
       && (d <=? days_in_month y m)%Z
       && (h <? 24)%Z && (mi <? 60)%Z && (sec <? 60)%Z
    then Some (((days_from_civil y m d * 86400 + h * 3600 + mi * 60 + sec)
                * 1000000)%Z)
    else None.

Definition pad (width : nat) (n : Z) : string :=
  let digits := pretty n in
  String.concat "" (replicate (width - String.length digits) "0") +:+ digits.

Definition strftime_padded (now : Z) : string :=
  let secs := now `div` 1000000 in
  let days := secs `div` 86400 in
  let rem := secs - days * 86400 in
  let '(y, m, d) := civil_from_days days in
  pad 4 y +:+ "-" +:+ pad 2 m +:+ "-" +:+ pad 2 d +:+ "_"
  +:+ pad 2 (rem `div` 3600) +:+ "-" +:+ pad 2 ((rem `mod` 3600) `div` 60)
  +:+ "-" +:+ pad 2 (rem `mod` 60).

(** A manager with the default retention policy: keep at least five
    snapshots, delete those older than thirty days. *)
Definition manager : Backup.services :=
  {| Backup.strptime := strptime_padded;
     Backup.strftime := strftime_padded;
     Backup.deflate_size :=
       fun ms => (N.of_nat (length ms) * 100 + 22)%N;
     Backup.unlink_ok := fun _ => true;
     Backup.auto_prune := true;
     Backup.keep_minimum := 5;
     Backup.keep_days := 30 |}.

(** 2024-04-10 12:00:00. *)
Definition noon : Z := 1712750400000000.

Definition empty_zip : Backup.zipfile :=
  {| Backup.members := []; Backup.st_size := 22 |}.

(** Eight snapshots taken 1, 10, 20, 31, 40, 50, 60 and 90 days before
    [noon], and a file that is not a snapshot. *)
Definition eight_snapshots : Backup.state :=
  {| Backup.siblings := ∅;
     Backup.backup_folder :=
       list_to_map
         [ ("backup_2024-02-10_12-00-00.zip", empty_zip);
           ("backup_2024-04-09_12-00-00.zip", empty_zip);
           ("backup_2024-03-21_12-00-00.zip", empty_zip);
           ("backup_2024-01-11_12-00-00.zip", empty_zip);
           ("backup_2024-03-31_12-00-00.zip", empty_zip);
           ("backup_2024-03-10_12-00-00.zip", empty_zip);
           ("notes.txt", empty_zip);
           ("backup_2024-02-20_12-00-00.zip", empty_zip);
           ("backup_2024-03-01_12-00-00.zip", empty_zip) ] |}.

(** The snapshot taken [days] days before [noon]. *)
Definition snapshot_aged (days : Z) : Backup.BackupInfo :=
  let ts := (noon - days * 86400 * 1000000)%Z in
  {| Backup.path := "backup_" +:+ strftime_padded ts +:+ ".zip";
     Backup.timestamp := ts;
     Backup.size := 22 |}.

(** A world with one region file, and the same world with an empty
    directory next to it. *)
Definition small_world : gmap (list string) Backup.node :=
  list_to_map
    [ (["region"], Backup.Dir);
      (["region"; "r.0.0.mca"], Backup.File "chunks");
      (["level.dat"], Backup.File "seed") ].


Definition server_folder (t : gmap (list string) Backup.node) : Backup.state :=
  {| Backup.siblings :=
       list_to_map [ ("world", Backup.EDir t);
                     ("server.jar", Backup.EFile "jar") ];
     Backup.backup_folder := ∅ |}.

(** The archive [create_backup] writes for [small_world], and the
    folder holding it under the name of a snapshot taken at [noon]. *)
Definition small_world_zip : Backup.zipfile :=
  let ms := Backup.archive_of "world" (Backup.EDir small_world) in
  {| Backup.members := ms;
     Backup.st_size := Backup.deflate_size manager ms |}.

Definition changed_world : gmap (list string) Backup.node :=
  list_to_map
    [ (["region"], Backup.Dir);
      (["region"; "r.0.0.mca"], Backup.File "newer chunks");
      (["region"; "r.0.1.mca"], Backup.File "more chunks");
      (["level.dat"], Backup.File "seed") ].

Definition before_restore : Backup.state :=
  {| Backup.siblings :=
       list_to_map [ ("world", Backup.EDir changed_world);
                     ("server.jar", Backup.EFile "jar") ];
     Backup.backup_folder :=
       {[ "backup_2024-04-10_12-00-00.zip" := small_world_zip ]} |}.

End Examples.

(* ===================================================================== *)
(** * lock.py: heartbeat update and release *)
(* ===================================================================== *)

Module LockFile.
Import Utils Lock.

(** [lock_info.last_heartbeat = ts] *)
Definition set_last_heartbeat (ts : yval) (li : LockInfo) : LockInfo :=
  {| hostname := hostname li;
     started_at := started_at li;
     last_heartbeat := ts;
     pid := pid li |}.

Section Manager.
Variable os : services.

(** [LockManager.update_heartbeat] *)
Definition update_heartbeat (w : world) : bool * world :=
  match read_lock os w with
  | None => (false, w)
  | Some lock_info =>
      if negb (is_own_machine os lock_info) then (false, w)
      else
        let lock_info :=
          set_last_heartbeat (YStr (isoformat os (clock w))) lock_info in
        match disk w with
        | WriteOk =>
            let text := dump os (to_dict lock_info) in
            (true, log_event (EvWrite text) (set_file (Contents text) w))
        | OpenFails => (false, log_event EvWriteFailed w)
        | DumpFails partial =>
            (false, log_event EvWriteFailed (set_file (Contents partial) w))
        end
  end.

(** [LockManager.delete_lock]; [unlink_ok] is false when [unlink] raises
    [OSError]. *)
Definition delete_lock (unlink_ok : bool) (w : world) : bool * world :=
  match lock_file w with
  | Absent => (true, w)
  | _ =>
      if unlink_ok then (true, set_held false (set_file Absent w))
      else (false, w)
  end.

(** [LockManager.get_raw_contents] *)
Definition get_raw_contents (w : world) : option string :=
  match lock_file w with
  | Absent => None
  | Unreadable => None
  | Contents s => Some s
  end.

(** The keys [from_dict] reads. *)
Definition known_keys : list string :=
  ["hostname"; "started_at"; "last_heartbeat"; "pid"].
End Manager.

End LockFile.
(* ===================================================================== *)
(** * main.py: the lock steps of the startup sequence *)
(* ===================================================================== *)

Module Wrapper.
Import Utils Lock LockFile.

(** What the operator answers during [handle_lock], and what the steps
    outside the lock manager deliver.  Each is asked for at most once on
    any path through [handle_lock]. *)
Record operator := {
  confirm : bool;          (* [confirm_action("Take over ...?")] *)
  choice : option nat;     (* [choose_option(...)]; [None]: cancelled *)
  restored : bool;         (* [_restore_backup_interactive()] *)
  unlink_ok : bool         (* whether [unlink] of the lock file succeeds *)
}.

Section Startup.
Variable os : services.
Variable format_size : N -> string.

(** [Wrapper.acquire_lock] with [config.safety.race_wait]. *)
Definition acquire_lock (race_wait : Z) (w : world) : bool * world :=
  let '(written, w) := write_lock os 0 w in
  if negb written then (false, w)
  else
    let w := sleep os race_wait w in
    let lock_info := read_lock os w in
    let w := log_event (EvRead lock_info) w in
    match lock_info with
    | None => (false, w)
    | Some li =>
        if bool_decide (hostname li ≠ YStr (get_hostname os))
        then (false, w)
        else (true, w)
    end.

(** [Wrapper._handle_own_crash] *)
Definition _handle_own_crash (op : operator)
    (report : Integrity.IntegrityReport) (w : world) : bool * world :=
  if Integrity.has_issues report then
    match choice op with
    | Some 0%nat => (true, snd (delete_lock (unlink_ok op) w))
    | Some 1%nat =>
        if restored op then (true, snd (delete_lock (unlink_ok op) w))
        else (false, w)
    | _ => (false, w)
    end
  else
    match choice op with
    | Some 0%nat => (true, snd (delete_lock (unlink_ok op) w))
    | _ => (false, w)
    end.

(** [Wrapper._handle_other_crash] *)
Definition _handle_other_crash (op : operator)
    (report : Integrity.IntegrityReport) (w : world) : bool * world :=
  if negb (confirm op) then (false, w)
  else if Integrity.has_issues report then
    match choice op with
    | Some 0%nat => (true, snd (delete_lock (unlink_ok op) w))
    | Some 1%nat =>
        if restored op then (true, snd (delete_lock (unlink_ok op) w))
        else (false, w)
    | _ => (false, w)
    end
  else (true, snd (delete_lock (unlink_ok op) w)).

(** [Wrapper.handle_lock]; [obs] is what the integrity scan of the world
    folder finds. *)
Definition handle_lock (op : operator) (folder : string)
    (obs : Integrity.observation) (w : world)
    : Py.outcome Py.cls (bool * world) :=
  Py.bind (check_lock_status os w) (fun '(status, lock_info) =>
    let report := Integrity.check_world_integrity format_size folder obs in
    if String.eqb status "free" then Py.Ret (true, w)
    else if String.eqb status "owned" then
      Py.Ret (_handle_own_crash op report w)
    else if String.eqb status "other_active" then Py.Ret (false, w)
    else if String.eqb status "other_stale" then
      Py.Ret (_handle_other_crash op report w)
    else Py.Ret (false, w)).
End Startup.

End Wrapper.
(* ===================================================================== *)
(** * utils.py: file permissions and the operator prompts *)
(* ===================================================================== *)

Module Prompt.

(** [stat.S_IROTH] and [stat.S_IWOTH]. *)
Definition S_IROTH : Z := 4.
Definition S_IWOTH : Z := 2.

(** What [check_file_permissions] finds at the path. *)
Inductive stat_mode :=
| NoFile                    (* [path.exists()] is false *)
| StatFails (msg : string)  (* [path.stat()] raises [OSError] *)
| Mode (st_mode : Z).

(** [check_file_permissions]; [oct] is Python's [oct]. *)
Definition check_file_permissions (oct : Z -> string) (path : string)
    (st : stat_mode) : bool * string :=
  match st with
  | NoFile => (true, "File does not exist")
  | Mode mode =>
      if negb (Z.land mode S_IROTH =? 0)%Z || negb (Z.land mode S_IWOTH =? 0)%Z
      then (false, "Warning: " +:+ path +:+ " is world-accessible (mode: "
                   +:+ oct mode +:+ ")")
      else (true, "Permissions OK")
  | StatFails e => (false, "Could not check permissions: " +:+ e)
  end.

Section Input.
(** [str.strip], [str.lower] and [int] on a string ([None]: [ValueError]). *)
Variable strip : string -> string.
Variable lower : string -> string.
Variable int : string -> option Z.

(** [confirm_action].  The operator's input is the list of lines typed
    before standard input ends; reading past it raises [EOFError]. *)
Fixpoint confirm_action (default : bool) (input : list string) : bool :=
  match input with
  | [] => false
  | line :: rest =>
      let response := lower (strip line) in
      if String.eqb response "" then default
      else if String.eqb response "y" || String.eqb response "yes" then true
      else if String.eqb response "n" || String.eqb response "no" then false
      else confirm_action default rest
  end.

(** [choose_option] *)
Fixpoint choose_option (options : list string) (allow_cancel : bool)
    (input : list string) : option nat :=
  match input with
  | [] => None
  | line :: rest =>
      let response := strip line in
      if String.eqb response "" then choose_option options allow_cancel rest
      else
        match int response with
        | Some choice =>
            if allow_cancel && (choice =? 0)%Z then None
            else if (1 <=? choice)%Z && (choice <=? Z.of_nat (length options))%Z
            then Some (Z.to_nat (choice - 1))
            else choose_option options allow_cancel rest
        | None => choose_option options allow_cancel rest
        end
  end.

(** A line [confirm_action] takes for an answer. *)
Definition decisive (line : string) : bool :=
  let response := lower (strip line) in
  String.eqb response "" || String.eqb response "y"
  || String.eqb response "yes" || String.eqb response "n"
  || String.eqb response "no".

(** The verdict of a decisive line. *)
Definition verdict (default : bool) (line : string) : bool :=
  let response := lower (strip line) in
  if String.eqb response "" then default
  else String.eqb response "y" || String.eqb response "yes".

(** A line [choose_option] takes no decision on and asks again. *)
Definition undecided (options : list string) (allow_cancel : bool)
    (line : string) : Prop :=
  strip line = "" \/
  int (strip line) = None \/
  exists choice, int (strip line) = Some choice /\
    ~ (allow_cancel = true /\ choice = 0) /\
    ~ (1 <= choice <= Z.of_nat (length options)).
End Input.

End Prompt.
(* ===================================================================== *)
(** * integrity.py: locating the region folders *)
(* ===================================================================== *)

Module Regions.

(** What [find_region_folders] observes below the world folder; paths are
    relative to it. *)
Record world_dir := {
  exists_ : list string -> bool;      (* [path.exists()] *)
  is_dir : list string -> bool;       (* [path.is_dir()] *)
  glob_DIM : list string              (* the names [glob("DIM*")] yields *)
}.

(** The body of the loop over [world_folder.glob("DIM*")]. *)
Definition add_dimension (v : world_dir) (region_folders : list (list string))
    (dim_folder : string) : list (list string) :=
  if is_dir v [dim_folder] then
    let region := [dim_folder; "region"] in
    if exists_ v region && negb (bool_decide (region ∈ region_folders))
    then (region_folders ++ [region])%list
    else region_folders
  else region_folders.

(** [find_region_folders] *)
Definition find_region_folders (v : world_dir) : list (list string) :=
  let region_folders : list (list string) := [] in
  let overworld := ["region"] in
  let region_folders :=
    if exists_ v overworld then (region_folders ++ [overworld])%list
    else region_folders in
  let nether := ["DIM-1"; "region"] in
  let region_folders :=
    if exists_ v nether then (region_folders ++ [nether])%list
    else region_folders in
  let end_ := ["DIM1"; "region"] in
  let region_folders :=
    if exists_ v end_ then (region_folders ++ [end_])%list
    else region_folders in
  fold_left (add_dimension v) (glob_DIM v) region_folders.

(** A region file that passes [check_region_file]. *)
Definition sound (st : Integrity.stat_result) : Prop :=
  exists size, st = Integrity.StSize size /\
               (8192 <= size)%N /\ (size mod 4096)%N = 0%N.

End Regions.
(* ===================================================================== *)
(** * syncthing.py: the folder operations *)
(* ===================================================================== *)

Module SyncthingClient.
Import Syncthing.

(** What [json.loads] returns. *)
#[local] Unset Elimination Schemes.
Inductive json :=
| JNull
| JBool (b : bool)
| JInt (n : Z)
| JFloat (x : spec_float)
| JStr (s : string)
| JList (l : list json)
| JDict (d : gmap string json).
#[local] Set Elimination Schemes.

(** What the methods raise: the exceptions of [_request], and the
    [AttributeError] of a [.get] on a value that is not a dict. *)
Inductive raised :=
| Exn (e : exn)
| AttributeError (msg : string).





(** [v.get(key)], with [None] for a missing key. *)
Definition get (v : json) (key : string) : Py.outcome raised (option json) :=
  match v with
  | JDict d => Py.Ret (d !! key)
  | _ => Py.Raise (AttributeError "object has no attribute 'get'")
  end.



(** One call of [urlopen]: the method, the endpoint and the JSON value
    sent as body. *)
Record request := {
  method : string;
  endpoint : string;
  data : option json
}.

Section Client.
(** The daemon: its state, and its answer to a request. *)
Variable daemon : Type.
Variable serve : daemon -> request -> wire * daemon.
Variable json_loads : string -> option json.

(** [self.url], [self.api_key], [self.folder_id] *)
Variable url : string.
Variable api_key : string.
Variable folder_id : string.

Record net := {
  server : daemon;
  calls : list request      (* the calls of [urlopen], oldest first *)
}.









(** *** Vocabulary for the calls a folder operation makes *)




End Client.

End SyncthingClient.
(* ===================================================================== *)
(** * backup.py: choosing a snapshot *)
(* ===================================================================== *)

Module BackupManager.
Import Backup.

Section Manager.
Variable sv : services.

(** [BackupManager.get_backup_by_index] *)
Definition get_backup_by_index (index : Z) (st : state) : option BackupInfo :=
  let backups := list_backups sv st in
  if (0 <=? index)%Z && (index <? Z.of_nat (length backups))%Z
  then backups !! Z.to_nat index
  else None.
End Manager.

(** The order [list_backups] promises: no snapshot is older than one
    listed after it. *)
Definition newest_first (l : list BackupInfo) : Prop :=
  StronglySorted (fun a b => timestamp b <= timestamp a) l.

End BackupManager.
(* ===================================================================== *)
(** * Scenarios for the properties beyond the specification *)
(* ===================================================================== *)

Module Scenarios.
Import Utils.

(** Host [beta], with the same codec and clock format as [alpha]. *)
Definition beta : Lock.services :=
  {| Lock.get_hostname := "beta";
     Lock.fromisoformat := Examples.fromisoformat_ex;
     Lock.isoformat := Examples.isoformat_ex;
     Lock.safe_load := Examples.load_lines;
     Lock.dump := Examples.dump_lines;
     Lock.replicate := fun _ f => f |}.



(** At 12:00:10 the lock file holds the record [alpha] wrote at 12:00:00
    and can be written. *)
Definition alpha_holds : Lock.world :=
  {| Lock.clock := 1712750410000000;
     Lock.lock_file :=
       Lock.Contents
         (Examples.dump_lines
            (Lock.to_dict (Lock.fresh_lock Examples.alpha 1712750400000000 0)));
     Lock.disk := Lock.WriteOk;
     Lock.stale_threshold := 60;
     Lock._lock_held := false;
     Lock.trace := [] |}.

(** An operator who confirms and picks the first option. *)
Definition recovers : Wrapper.operator :=
  {| Wrapper.confirm := true;
     Wrapper.choice := Some 0%nat;
     Wrapper.restored := false;
     Wrapper.unlink_ok := true |}.

(** A world with one sound and one truncated region file. *)
Definition one_truncated : Integrity.observation :=
  {| Integrity.world_exists := true;
     Integrity.region_folders :=
       [ [ ("r.0.0.mca", Integrity.StSize 8192);
           ("r.0.1.mca", Integrity.StSize 5000) ] ] |}.

Definition plain_size (n : N) : string := pretty n.

(** [int] on decimal digits. *)
Definition int_digits (s : string) : option Z :=
  if String.eqb s "" then None else Examples.number 0 s.

(** The snapshot of the small world taken at [noon], and the server
    folder after it was taken. *)
Definition noon_snapshot : Backup.BackupInfo :=
  {| Backup.path := "backup_2024-04-10_12-00-00.zip";
     Backup.timestamp := Examples.noon;
     Backup.size := Backup.st_size Examples.small_world_zip |}.

Definition after_backup : Backup.state :=
  {| Backup.siblings :=
       Backup.siblings (Examples.server_folder Examples.small_world);
     Backup.backup_folder :=
       {[ "backup_2024-04-10_12-00-00.zip" := Examples.small_world_zip ]} |}.

End Scenarios.

(* ===================================================================== *)
(** * Properties of the lock manager *)
(* ===================================================================== *)

Section LockFacts.
Import Utils Lock.
Variable os : services.

Lemma parse_timestamp_raises (ts : yval) (e : Py.cls) :
  parse_timestamp (fromisoformat os) ts = Py.Raise e ->
  e = Py.ValueError \/ e = Py.TypeError.
Proof.
  unfold parse_timestamp.
  destruct ts; try (intros [= <-]; by right).
  destruct (fromisoformat os s); [discriminate|].
  destruct (fromisoformat os _); [discriminate|].
  intros [= <-]. by left.
Qed.

Lemma timestamp_age_raises now (ts : yval) (e : Py.cls) :
  timestamp_age_seconds (fromisoformat os) now ts = Py.Raise e ->
  e = Py.ValueError \/ e = Py.TypeError.
Proof.
  unfold timestamp_age_seconds.
  destruct (parse_timestamp _ ts) eqn:E; [discriminate|].
  intros [= <-]. eauto using parse_timestamp_raises.
Qed.





(** C7. A record whose [last_heartbeat] is the empty string (which
    [fromisoformat] rejects) or cannot be parsed has heartbeat age
    [+inf] and is stale for every threshold. *)
Theorem unparseable_heartbeat_is_stale (now : Z) (li : LockInfo) :
  (last_heartbeat li = YStr "" /\ fromisoformat os "" = None) \/
  unparseable os (last_heartbeat li) ->
  heartbeat_age os now li = Py.Ret Inf /\
  forall threshold, is_stale os now li threshold = Py.Ret true.
Proof.
  intros H.
  assert (Hraise : exists e,
    timestamp_age_seconds (fromisoformat os) now (last_heartbeat li)
      = Py.Raise e).
  { unfold timestamp_age_seconds, parse_timestamp.
    destruct H as [[-> Hempty] | H].
    - simpl. rewrite Hempty. by eexists.
    - destruct (last_heartbeat li); try by eexists.
      destruct H as [-> ->]. by eexists. }
  destruct Hraise as [e He].
  unfold heartbeat_age, is_stale. rewrite He. simpl.
  by destruct (timestamp_age_raises _ _ _ He) as [-> | ->].
Qed.


Lemma from_dict_to_dict (li : LockInfo) : from_dict (to_dict li) = li.
Proof. by destruct li. Qed.

Lemma to_dict_nonempty (li : LockInfo) : to_dict li ≠ ∅.
Proof. unfold to_dict. apply insert_non_empty. Qed.

(** With a codec that reads back what it dumped, the record [read_lock]
    finds after a successful [write_lock] is the fresh one. *)
Lemma read_after_write (w : world) (pid : Z) :
  disk w = WriteOk ->
  (forall d, safe_load os (dump os d) = Some (DDict d)) ->
  read_lock os (snd (write_lock os pid w)) = Some (fresh_lock os (clock w) pid).
Proof.
  intros Hdisk Hcodec. unfold write_lock. rewrite Hdisk. simpl.
  unfold read_lock. simpl. rewrite Hcodec.
  rewrite bool_decide_eq_false_2 by apply to_dict_nonempty.
  by rewrite from_dict_to_dict.
Qed.


(** When the write fails, [acquire_lock] returns false at once: it
    neither sleeps nor re-reads. *)
Lemma acquire_lock_write_fails (w : world) (pid race_wait : Z) :
  disk w <> WriteOk ->
  exists w',
    acquire_lock os pid race_wait w = (false, w') /\
    trace w' = (trace w ++ [EvWriteFailed])%list.
Proof.
  intros Hdisk. unfold acquire_lock, write_lock.
  destruct (disk w); [done| |]; simpl; by eexists.
Qed.
End LockFacts.

(** C2 at work: ten seconds after [beta]'s heartbeat, [alpha] sees
    [other_active]. *)
Example check_lock_status_beta :
  fst <$> match Lock.check_lock_status Examples.alpha Examples.beta_holds with
          | Py.Ret r => Some r
          | Py.Raise _ => None
          end = Some "other_active".
Proof. vm_compute. reflexivity. Qed.

(** Witness for C7: a record with an empty heartbeat. *)
Lemma unparseable_heartbeat_is_stale_witness :
  Lock.heartbeat_age Examples.alpha 0 Examples.no_heartbeat = Py.Ret Lock.Inf /\
  forall threshold,
    Lock.is_stale Examples.alpha 0 Examples.no_heartbeat threshold = Py.Ret true.
Proof.
  apply (unparseable_heartbeat_is_stale Examples.alpha 0 Examples.no_heartbeat).
  left. split; reflexivity.
Defined.




(* ===================================================================== *)
(** * Properties of the integrity scanner *)
(* ===================================================================== *)

Section IntegrityFacts.
Import Integrity.
Variable format_size : N -> string.

Lemma scan_file_counts (report : IntegrityReport) (f : string * stat_result) :
  checked_files (scan_file format_size report f) = S (checked_files report) /\
  (length (issues (scan_file format_size report f))
     <= S (length (issues report)))%nat /\
  (length (issues report)
     <= length (issues (scan_file format_size report f)))%nat.
Proof.
  unfold scan_file.
  destruct (check_region_file format_size f.1 f.2); simpl;
    rewrite ?length_app; simpl; lia.
Qed.

Lemma scan_folder_invariant (files : list (string * stat_result))
    (report : IntegrityReport) :
  (length (issues report) <= checked_files report)%nat ->
  (length (issues (fold_left (scan_file format_size) files report))
     <= checked_files (fold_left (scan_file format_size) files report))%nat.
Proof.
  revert report. induction files as [|f files IH]; intros report H; [done|].
  simpl. apply IH.
  destruct (scan_file_counts report f) as (-> & Hle & _). lia.
Qed.

Lemma scan_world_invariant (folders : list (list (string * stat_result)))
    (report : IntegrityReport) :
  (length (issues report) <= checked_files report)%nat ->
  let scanned :=
    fold_left (fun report region_folder =>
                 fold_left (scan_file format_size) region_folder report)
              folders report in
  (length (issues scanned) <= checked_files scanned)%nat.
Proof.
  revert report. induction folders as [|files folders IH]; intros report H;
    [done|].
  simpl. apply IH. by apply scan_folder_invariant.
Qed.

(** C9. [check_region_file] reports [zero_byte] exactly for size 0,
    [truncated] exactly for a positive size below 8192 or not a multiple
    of 4096, [unreadable] exactly when [stat] raises, and nothing
    otherwise; a scanned file adds one to [checked_files] and at most one
    issue, and every report has [checked_files >= |issues|]. *)
Theorem check_region_file_cases :
  (forall file_path st,
     let kind := issue_type <$> check_region_file format_size file_path st in
     (kind = Some "zero_byte" <-> st = StSize 0) /\
     (kind = Some "truncated" <->
        exists size, st = StSize size /\ (0 < size)%N /\
                     ((size < 8192)%N \/ (size mod 4096)%N <> 0%N)) /\
     (kind = Some "unreadable" <-> exists msg, st = StOSError msg) /\
     (kind = None <->
        exists size, st = StSize size /\ (8192 <= size)%N /\
                     (size mod 4096)%N = 0%N)) /\
  (forall report f,
     checked_files (scan_file format_size report f)
       = S (checked_files report) /\
     (length (issues (scan_file format_size report f))
        <= S (length (issues report)))%nat) /\
  (forall folder obs,
     (length (issues (check_world_integrity format_size folder obs))
        <= checked_files (check_world_integrity format_size folder obs))%nat).
Proof.
  split; [|split].
  - intros file_path st kind. subst kind. unfold check_region_file.
    destruct st as [size|msg]; simpl.
    { unfold SECTOR_SIZE.
      destruct (N.eqb_spec size 0) as [->|Hz]; simpl;
        [repeat split; naive_solver lia|].
      destruct (N.ltb_spec size (4096 * 2)) as [Hs|Hs]; simpl;
        [repeat split; naive_solver lia|].
      destruct (N.eqb_spec (size mod 4096) 0) as [Hm|Hm]; simpl;
        repeat split; naive_solver lia. }
    repeat split; naive_solver.
  - intros report f. destruct (scan_file_counts report f) as (? & ? & _).
    done.
  - intros folder obs. unfold check_world_integrity.
    destruct (world_exists obs); simpl; [|lia].
    destruct (region_folders obs) as [|files folders] eqn:E; simpl; [lia|].
    apply (scan_world_invariant folders). apply scan_folder_invariant.
    simpl. lia.
Qed.
End IntegrityFacts.

(* ===================================================================== *)
(** * Properties of the child supervisor *)
(* ===================================================================== *)

Section ServerFacts.
Import Server.

(** What [stop] returns on a running child: true when the child exits in
    time after the stop command, and otherwise whatever [kill] returns,
    which is true when the kill succeeds. *)
Lemma stop_running (timeout : Z) (p : process) :
  is_running p = true ->
  fst (stop timeout p) = true <->
    (pipe_ok p = true /\
     exists t, exit_after_stop p = Some t /\ t <= timeout) \/
    ((pipe_ok p = false \/
      forall t, exit_after_stop p = Some t -> timeout < t) /\
     on_kill p = KillOk).
Proof.
  destruct p as [st al pk ex ok tr].
  unfold stop, send_command, wait, kill, is_running. simpl.
  intros Hrun. destruct st, al; try discriminate Hrun. simpl.
  destruct pk; simpl.
  - destruct ex as [t|]; simpl.
    + destruct (Z.leb_spec t timeout); simpl.
      * naive_solver.
      * destruct ok; simpl; naive_solver lia.
    + destruct ok; simpl; naive_solver.
  - destruct ok; simpl; naive_solver.
Qed.

(** C4, the code at the failing input: the child ignores the stop
    command for the whole timeout, [stop] kills it, and returns true. *)
Theorem stop_forced_returns_true :
  Server.is_running Examples.hung_child = true /\
  stop 60 Examples.hung_child
    = (true,
       {| started := true; alive := false; pipe_ok := true;
          exit_after_stop := None; on_kill := KillOk;
          trace := [EvSend "stop"; EvKill] |}).
Proof. split; reflexivity. Qed.

(** The graceful case for comparison. *)
Example stop_graceful :
  stop 60 Examples.obedient_child
    = (true,
       {| started := true; alive := false; pipe_ok := true;
          exit_after_stop := Some 2; on_kill := KillOk;
          trace := [EvSend "stop"; EvExit] |}).
Proof. reflexivity. Qed.
End ServerFacts.

(* ===================================================================== *)
(** * Properties of the sync-daemon client *)
(* ===================================================================== *)

Section SyncthingFacts.
Import Syncthing.
Variable json : Type.
Variable json_loads : string -> option json.
Variable empty_object : json.
Variable url : string.

(** An [HTTPError] is an instance of [URLError], so the first clause of
    the [try] statement takes it. *)
Lemma http_error_is_url_error code msg :
  isinstance (EHTTPError code msg) Py.URLError = true.
Proof. reflexivity. Qed.

(** Every reply outside 200..299 ends in [SyncthingUnavailable]. *)
Lemma request_non_2xx (method endpoint : string) st phrase body :
  ~ (200 <= st < 300) ->
  _request json json_loads empty_object url method endpoint
           (Reply st phrase body)
  = Py.Raise (EPlain Py.SyncthingUnavailable
                ("Could not connect to Syncthing: " +:+ phrase)).
Proof.
  intros H. unfold _request, urlopen.
  destruct (Z.leb_spec 200 st); destruct (Z.ltb_spec st 300); simpl;
    try lia; reflexivity.
Qed.

(** The failures the [try] statement does classify as the docstring
    says: a refused connection and a read timeout are
    [SyncthingUnavailable]; invalid JSON and a 2xx reply other than 200
    are plain [SyncthingError]. *)
Lemma request_classified (method endpoint : string) :
  _request json json_loads empty_object url method endpoint
           (ConnectionRefused "[Errno 111] Connection refused")
  = Py.Raise (EPlain Py.SyncthingUnavailable
                ("Syncthing not reachable at " +:+ url)) /\
  _request json json_loads empty_object url method endpoint ReadTimesOut
  = Py.Raise (EPlain Py.SyncthingUnavailable
                "Connection to Syncthing timed out") /\
  (forall text, text ≠ "" -> json_loads text = None ->
     _request json json_loads empty_object url method endpoint
              (Reply 200 "OK" (Some text))
     = Py.Raise (EPlain Py.SyncthingError "Invalid JSON response")) /\
  _request json json_loads empty_object url method endpoint
           (Reply 204 "No Content" (Some ""))
  = Py.Raise (EPlain Py.SyncthingError "API returned status 204").
Proof.
  repeat split.
  intros text Hne Hbad. unfold _request. simpl.
  rewrite bool_decide_eq_true_2 by done. by rewrite Hbad.
Qed.

(** C5, the code at the failing input: a 404 reply is reported as
    [SyncthingUnavailable]; the [except HTTPError] clause is never
    reached. *)
Theorem request_http_error_unavailable :
  _request json json_loads empty_object url "GET" "/rest/config/folders"
           Examples.not_found
  = Py.Raise (EPlain Py.SyncthingUnavailable
                "Could not connect to Syncthing: Not Found").
Proof. reflexivity. Qed.
End SyncthingFacts.

(* ===================================================================== *)
(** * Properties of the snapshot engine *)
(* ===================================================================== *)

Section BackupFacts.
Import Backup.

Lemma old_name_fresh (s : string) : s ≠ s +:+ ".old".
Proof.
  induction s as [|a s IH]; simpl; [discriminate|].
  intros [= H]. by apply IH.
Qed.

(** The proper prefixes of a path are the non-empty paths it extends by
    at least one component. *)
Lemma elem_of_proper_prefixes (p q : list string) :
  p ∈ proper_prefixes q <-> p ≠ [] /\ exists r, r ≠ [] /\ q = (p ++ r)%list.
Proof.
  revert p. induction q as [|x q IH]; intros p; simpl.
  { split; [by intros ?%elem_of_nil|].
    intros (Hp & r & _ & Hq). by destruct p. }
  destruct q as [|y q'].
  { split; [by intros ?%elem_of_nil|].
    intros (Hp & r & Hr & Hq). destruct p as [|a [|b p']]; try done.
    injection Hq as -> Hq. by subst r. }
  rewrite elem_of_cons, list_elem_of_fmap. split.
  - intros [-> | (p' & -> & Hp')].
    + split; [done|]. by exists (y :: q').
    + apply IH in Hp' as (Hne & r & Hr & ->).
      split; [done|]. by exists r.
  - intros (Hp & r & Hr & Hq). destruct p as [|a p']; [done|].
    injection Hq as -> Hq. destruct p' as [|b p''].
    + by left.
    + right. exists (b :: p''). split; [done|].
      apply IH. split; [done|]. by exists r.
Qed.

(** *** Extraction touches only the entries the members name *)

Lemma extract_member_other (m : member) (d d' : gmap string entry) k :
  extract_member m d = Py.Ret d' -> arc_top m ≠ k -> d' !! k = d !! k.
Proof.
  unfold extract_member. intros H Hk.
  destruct (arc_rest m) as [|x rest].
  - destruct (d !! arc_top m) as [[c|t]|]; simplify_eq;
      by rewrite lookup_insert_ne.
  - destruct (d !! arc_top m) as [[c|t]|]; simplify_eq.
    + destruct (write_file (x :: rest) (arc_data m) t); simplify_eq/=.
      by rewrite lookup_insert_ne.
    + destruct (write_file (x :: rest) (arc_data m) ∅); simplify_eq/=.
      by rewrite lookup_insert_ne.
Qed.

Lemma extract_from_other (ms : list member) :
  forall i f (d d' : gmap string entry) r k,
    extract_from i ms f d = (r, d') ->
    (forall m, m ∈ ms -> arc_top m ≠ k) ->
    d' !! k = d !! k.
Proof.
  induction ms as [|m ms IH]; intros i f d d' r k H Hk; simpl in H.
  { by simplify_eq. }
  assert (Hstep : forall d1,
    extract_member m d = Py.Ret d1 ->
    extract_from (S i) ms f d1 = (r, d') -> d' !! k = d !! k).
  { intros d1 Hm Hrest.
    rewrite (IH _ _ _ _ _ _ Hrest); [|intros; apply Hk; by right].
    apply (extract_member_other m); [done|]. apply Hk. by left. }
  destruct f as [|c|j c].
  - destruct (extract_member m d) eqn:E; [eauto|by simplify_eq].
  - destruct (extract_member m d) eqn:E; [eauto|by simplify_eq].
  - case_bool_decide; [by simplify_eq|].
    destruct (extract_member m d) eqn:E; [eauto|by simplify_eq].
Qed.

Lemma extractall_other (z : zipfile) f (d d' : gmap string entry) r k :
  extractall z f d = (r, d') ->
  (forall m, m ∈ members z -> arc_top m ≠ k) ->
  d' !! k = d !! k.
Proof.
  unfold extractall. intros H Hk.
  destruct f; try by eapply extract_from_other.
  by simplify_eq.
Qed.

(** Extraction raises the injected class or an [OSError]. *)
Lemma extract_member_raises (m : member) (d : gmap string entry) e :
  extract_member m d = Py.Raise e -> e = Py.OSError.
Proof.
  unfold extract_member, write_file.
  assert (Hmk : forall ps t e, mkdirs ps t = Py.Raise e -> e = Py.OSError).
  { induction ps as [|p ps IH]; intros t e'; simpl; [done|].
    destruct (t !! p) as [[|c]|]; eauto. by intros [= <-]. }
  destruct (arc_rest m) as [|x rest].
  - destruct (d !! arc_top m) as [[c|t]|]; by intros [= <-].
  - destruct (d !! arc_top m) as [[c|t]|]; [by intros [= <-]| |].
    + destruct (mkdirs _ t) as [t1|e1] eqn:E; simpl.
      * destruct (t1 !! (x :: rest)) as [[|?]|]; by intros [= <-].
      * intros [= <-]. eauto.
    + destruct (mkdirs _ ∅) as [t1|e1] eqn:E; simpl.
      * destruct (t1 !! (x :: rest)) as [[|?]|]; by intros [= <-].
      * intros [= <-]. eauto.
Qed.

Lemma extract_from_raises (ms : list member) :
  forall i f (d d' : gmap string entry) e,
    extract_from i ms f d = (Py.Raise e, d') ->
    e = Py.OSError \/ fault_class f = Some e.
Proof.
  induction ms as [|m ms IH]; intros i f d d' e H; simpl in H.
  { by simplify_eq. }
  destruct f as [|c|j c].
  - destruct (extract_member m d) eqn:E; [eauto|].
    simplify_eq. left. by eapply extract_member_raises.
  - destruct (extract_member m d) eqn:E; [eauto|].
    simplify_eq. left. by eapply extract_member_raises.
  - case_bool_decide; [simplify_eq; by right|].
    destruct (extract_member m d) eqn:E; [eauto|].
    simplify_eq. left. by eapply extract_member_raises.
Qed.

Lemma extractall_raises (z : zipfile) f (d d' : gmap string entry) e :
  extractall z f d = (Py.Raise e, d') ->
  e = Py.OSError \/ fault_class f = Some e.
Proof.
  unfold extractall. intros H.
  destruct f; try by eapply extract_from_raises.
  simplify_eq. by right.
Qed.

(** *** The safety rename and the rollback *)

Lemma exists_true name (d : gmap string entry) e :
  d !! name = Some e -> exists_ name d = true.
Proof. intros H. unfold exists_. apply bool_decide_eq_true_2. eauto. Qed.

Lemma exists_false name (d : gmap string entry) :
  d !! name = None -> exists_ name d = false.
Proof.
  intros H. unfold exists_. apply bool_decide_eq_false_2.
  rewrite H. by intros [? ?].
Qed.

(** With the target present, the safety rename either fails on a regular
    file in the way at [<target>.old], or moves the target there. *)
Lemma safety_rename_moves target (d : gmap string entry) e :
  d !! target = Some e ->
  (exists c, d !! (target +:+ ".old") = Some (EFile c) /\
             safety_rename target d = (Py.Raise Py.OSError, d)) \/
  (exists d2,
     safety_rename target d = (Py.Ret (Some (target +:+ ".old")), d2) /\
     d2 = <[target +:+ ".old" := e]>
            (delete target (delete (target +:+ ".old") d))).
Proof.
  intros Ht. unfold safety_rename. rewrite (exists_true _ _ _ Ht).
  pose proof (old_name_fresh target) as Hfresh.
  destruct (d !! (target +:+ ".old")) as [[c|t]|] eqn:Hold.
  - left. exists c. split; [done|].
    rewrite (exists_true _ _ _ Hold). unfold rmtree. by rewrite Hold.
  - right. rewrite (exists_true _ _ _ Hold). unfold rmtree, rename.
    rewrite Hold, lookup_delete_ne, Ht, lookup_delete_eq by done.
    by eexists.
  - right. rewrite (exists_false _ _ Hold). unfold rename.
    rewrite Ht, Hold. eexists. split; [done|].
    by rewrite (delete_id d (target +:+ ".old")).
Qed.

(** With the rollback directory present, the [except] clause either
    fails to remove a regular file at the target, or puts the rollback
    directory back. *)
Lemma rollback_moves_back target (d : gmap string entry) e :
  d !! (target +:+ ".old") = Some e ->
  (exists c, d !! target = Some (EFile c) /\
             rollback (Some (target +:+ ".old")) target d
             = (Py.Raise Py.OSError, d)) \/
  (exists d',
     rollback (Some (target +:+ ".old")) target d = (Py.Ret tt, d') /\
     d' = <[target := e]> (delete (target +:+ ".old") (delete target d))).
Proof.
  intros Hold. unfold rollback. rewrite (exists_true _ _ _ Hold).
  pose proof (old_name_fresh target) as Hfresh.
  destruct (d !! target) as [[c|t]|] eqn:Ht.
  - left. exists c. split; [done|].
    rewrite (exists_true _ _ _ Ht). unfold rmtree. by rewrite Ht.
  - right. rewrite (exists_true _ _ _ Ht). unfold rmtree, rename.
    rewrite Ht, lookup_delete_ne, Hold, lookup_delete_eq by done.
    by eexists.
  - right. rewrite (exists_false _ _ Ht). unfold rename.
    rewrite Hold, Ht. eexists. split; [done|].
    by rewrite (delete_id d target).
Qed.


(** *** Faults the [except] clause catches *)

Lemma extract_member_below world (m : member) (d d' : gmap string entry) :
  below world m ->
  extract_member m d = Py.Ret d' ->
  absent_or_dir (d' !! world).
Proof.
  intros [<- Hrest]. unfold extract_member.
  destruct (arc_rest m) as [|x rest]; [done|].
  destruct (d !! arc_top m) as [[c|t]|]; [done| |].
  - destruct (write_file _ _ t); simpl; [|done].
    intros [= <-]. by rewrite lookup_insert_eq.
  - destruct (write_file _ _ ∅); simpl; [|done].
    intros [= <-]. by rewrite lookup_insert_eq.
Qed.

Lemma extract_from_below world (ms : list member) :
  forall i f (d d' : gmap string entry) r,
    Forall (below world) ms ->
    absent_or_dir (d !! world) ->
    extract_from i ms f d = (r, d') ->
    absent_or_dir (d' !! world).
Proof.
  induction ms as [|m ms IH]; intros i f d d' r Hms Hd H; simpl in H.
  { by simplify_eq. }
  apply Forall_cons in Hms as [Hm Hms].
  assert (Hstep : forall d1,
    extract_member m d = Py.Ret d1 ->
    extract_from (S i) ms f d1 = (r, d') -> absent_or_dir (d' !! world)).
  { intros d1 Hd1 Hrest. eapply IH; [done| |exact Hrest].
    by eapply extract_member_below. }
  destruct f as [|c|j c].
  - destruct (extract_member m d) eqn:E; [eauto|by simplify_eq].
  - destruct (extract_member m d) eqn:E; [eauto|by simplify_eq].
  - case_bool_decide; [by simplify_eq|].
    destruct (extract_member m d) eqn:E; [eauto|by simplify_eq].
Qed.

(** A fault placed on a member of the archive does interrupt the
    extraction. *)
Lemma extract_from_fault (ms : list member) :
  forall i j c (d : gmap string entry),
    (i <= j < i + length ms)%nat ->
    exists e d', extract_from i ms (MemberFault j c) d = (Py.Raise e, d').
Proof.
  induction ms as [|m ms IH]; intros i j c d Hj; simpl in *; [lia|].
  case_bool_decide; [by eexists _, _|].
  destruct (extract_member m d) eqn:E; [|by eexists _, _].
  apply IH. lia.
Qed.

(** When the archive was written for the target folder and opening it, or
    reading or writing one of its members, raises [OSError] or
    [BadZipFile], an existing target ends up as it was and
    [restore_backup] raises [BackupError], provided no regular file sits
    at [<target>.old]. *)
Lemma restore_caught_fault (backup : BackupInfo) (target : string)
    (f : fault) (st : state) (z : zipfile) (e : entry) (c : zip_error) :
  backup_folder st !! path backup = Some z ->
  siblings st !! target = Some e ->
  (forall c', siblings st !! (target +:+ ".old") ≠ Some (EFile c')) ->
  Forall (below target) (members z) ->
  f = OpenFault c \/
  (exists j, f = MemberFault j c /\ (j < length (members z))%nat) ->
  c = ZipOSError \/ c = ZipBadZipFile ->
  exists st',
    restore_backup backup target f st = (Py.Raise Py.BackupError, st') /\
    siblings st' !! target = Some e /\
    siblings st' !! (target +:+ ".old") = None.
Proof.
  intros Hz Ht Hold Hms Hf Hc.
  pose proof (old_name_fresh target) as Hfresh.
  unfold restore_backup. rewrite Hz.
  destruct (safety_rename_moves target _ e Ht)
    as [(c' & Hc' & _) | (d2 & -> & Hd2)]; [by apply Hold in Hc'|].
  assert (Hex : exists e' d3,
    extractall z f d2 = (Py.Raise e', d3) /\
    Py.issubclass_any e' [Py.OSError; Py.BadZipFile] = true /\
    absent_or_dir (d3 !! target) /\
    d3 !! (target +:+ ".old") = Some e).
  { destruct (extractall z f d2) as [r d3] eqn:E.
    assert (Hr : exists e', r = Py.Raise e').
    { unfold extractall in E. destruct Hf as [-> | (j & -> & Hj)].
      - injection E as <- <-. by eexists.
      - destruct (extract_from_fault (members z) 0 j c d2) as (e' & d' & H');
          [lia|]. rewrite H' in E. injection E as <- <-. by eexists. }
    destruct Hr as [e' ->]. exists e', d3. split; [done|].
    split; [|split].
    - destruct (extractall_raises _ _ _ _ _ E) as [-> | Hfc]; [done|].
      destruct Hf as [-> | (j & -> & _)]; simpl in Hfc;
        injection Hfc as <-; by destruct Hc as [-> | ->].
    - unfold extractall in E.
      assert (Hd2t : absent_or_dir (d2 !! target)).
      { rewrite Hd2, lookup_insert_ne, lookup_delete_eq by done. done. }
      destruct f; try by eapply extract_from_below.
      by simplify_eq.
    - rewrite (extractall_other _ _ _ _ _ _ E), Hd2.
      + apply lookup_insert_eq.
      + intros m Hm. rewrite Forall_forall in Hms.
        destruct (Hms m Hm) as [-> _]. done. }
  destruct Hex as (e' & d3 & -> & -> & Hd3 & Hd3old).
  destruct (rollback_moves_back target d3 e Hd3old)
    as [(c' & Hc' & _) | (d' & -> & ->)].
  - rewrite Hc' in Hd3. done.
  - eexists. split; [done|]. simpl.
    by rewrite lookup_insert_eq, lookup_insert_ne, lookup_delete_eq.
Qed.
End BackupFacts.

(** *** The snapshot round trip *)

Section RoundTrip.
Import Backup.
Variable sv : services.
Variable t : gmap (list string) node.
Hypothesis Hwf : well_formed t.

Lemma mkdirs_within (ps : list (list string)) :
  forall tk : gmap (list string) node,
    tk ⊆ t ->
    (forall p, p ∈ ps -> t !! p = Some Dir) ->
    exists tk',
      mkdirs ps tk = Py.Ret tk' /\
      tk ⊆ tk' /\ tk' ⊆ t /\
      forall p, p ∈ ps -> tk' !! p = Some Dir.
Proof.
  induction ps as [|p ps IH]; intros tk Hsub Hps; simpl.
  { exists tk. repeat split; try done. intros p Hp. by apply elem_of_nil in Hp. }
  assert (Hp : t !! p = Some Dir) by (apply Hps; by left).
  assert (Hrest : forall p', p' ∈ ps -> t !! p' = Some Dir)
    by (intros; apply Hps; by right).
  destruct (tk !! p) as [[|c]|] eqn:E.
  - destruct (IH tk Hsub Hrest) as (tk' & -> & H1 & H2 & H3).
    exists tk'. repeat split; try done.
    intros p' [->|Hin]%elem_of_cons; [|by apply H3].
    by eapply lookup_weaken.
  - pose proof (lookup_weaken _ _ _ _ E Hsub). congruence.
  - destruct (IH (<[p := Dir]> tk)) as (tk' & -> & H1 & H2 & H3).
    { by apply insert_subseteq_l. }
    { done. }
    exists tk'. repeat split; try done.
    + etrans; [|exact H1]. by apply insert_subseteq.
    + intros p' [->|Hin]%elem_of_cons; [|by apply H3].
      eapply lookup_weaken; [|exact H1]. apply lookup_insert_eq.
Qed.

Lemma write_file_within (q : list string) (c : string)
    (tk : gmap (list string) node) :
  t !! q = Some (File c) ->
  tk ⊆ t ->
  exists tk',
    write_file q c tk = Py.Ret tk' /\
    tk ⊆ tk' /\ tk' ⊆ t /\
    tk' !! q = Some (File c) /\
    forall p, p ∈ proper_prefixes q -> tk' !! p = Some Dir.
Proof.
  intros Hq Hsub. unfold write_file.
  destruct (mkdirs_within (proper_prefixes q) tk Hsub)
    as (tk1 & -> & H1 & H2 & H3).
  { intros p Hp. apply (proj2 Hwf q); [by eexists | done]. }
  simpl.
  assert (Hins : tk1 ⊆ <[q := File c]> tk1).
  { destruct (tk1 !! q) as [n|] eqn:E; [|by apply insert_subseteq].
    pose proof (lookup_weaken _ _ _ _ E H2).
    rewrite insert_id; [done | congruence]. }
  assert (Hres : exists tk', 
    match tk1 !! q with
    | Some Dir => Py.Raise Py.OSError
    | _ => Py.Ret (<[q := File c]> tk1)
    end = Py.Ret tk' /\ tk' = <[q := File c]> tk1).
  { destruct (tk1 !! q) as [[|c']|] eqn:E; try by eexists.
    pose proof (lookup_weaken _ _ _ _ E H2). congruence. }
  destruct Hres as (tk' & -> & ->).
  eexists. split; [done|]. repeat split.
  - by etrans.
  - by apply insert_subseteq_l.
  - apply lookup_insert_eq.
  - intros p Hp. eapply lookup_weaken; [|exact Hins]. by apply H3.
Qed.

(** Extracting archive members made from files of [t] below [world],
    into a directory where [world] is absent or holds part of [t]. *)
Lemma extract_files (world : string) (L : list (list string * string)) :
  forall i (tk : gmap (list string) node) (d : gmap string entry),
    d !! world = Some (EDir tk) \/ (d !! world = None /\ tk = ∅) ->
    tk ⊆ t ->
    (forall q c, (q, c) ∈ L -> t !! q = Some (File c)) ->
    exists d' tk',
      extract_from i
        (map (fun '(p, c) =>
                {| arc_top := world; arc_rest := p; arc_data := c |}) L)
        NoFault d = (Py.Ret tt, d') /\
      (forall k, k ≠ world -> d' !! k = d !! k) /\
      (L ≠ [] -> d' !! world = Some (EDir tk')) /\
      (L = [] -> d' = d /\ tk' = tk) /\
      tk ⊆ tk' /\ tk' ⊆ t /\
      forall q c, (q, c) ∈ L ->
        tk' !! q = Some (File c) /\
        forall p, p ∈ proper_prefixes q -> tk' !! p = Some Dir.
Proof.
  induction L as [|[q c] L IH]; intros i tk d Hd Hsub HL.
  { exists d, tk. simpl. do 6 (split; [done|]).
    intros q c Hin. by apply elem_of_nil in Hin. }
  assert (Hq : t !! q = Some (File c)) by (apply HL; by left).
  assert (Hrest : forall q' c', (q', c') ∈ L -> t !! q' = Some (File c'))
    by (intros; apply HL; by right).
  assert (Hmember : exists tk1,
    extract_member {| arc_top := world; arc_rest := q; arc_data := c |} d
    = Py.Ret (<[world := EDir tk1]> d) /\
    tk ⊆ tk1 /\ tk1 ⊆ t /\ tk1 !! q = Some (File c) /\
    forall p, p ∈ proper_prefixes q -> tk1 !! p = Some Dir).
  { unfold extract_member. simpl.
    destruct q as [|x q']; [destruct Hwf; congruence|].
    destruct Hd as [Hd | [Hd ->]]; rewrite Hd.
    - destruct (write_file_within (x :: q') c tk Hq Hsub)
        as (tk1 & -> & ?). by exists tk1.
    - destruct (write_file_within (x :: q') c ∅ Hq)
        as (tk1 & -> & ?); [apply map_empty_subseteq|]. by exists tk1. }
  destruct Hmember as (tk1 & Hm & H1 & H2 & H3 & H4).
  destruct (IH (S i) tk1 (<[world := EDir tk1]> d))
    as (d' & tk' & Hex & Hother & Hne & Hnil & H5 & H6 & H7);
    [left; apply lookup_insert_eq | done | done |].
  exists d', tk'. simpl. rewrite Hm. split; [done|].
  split; [|split; [|split; [|split; [|split]]]].
  - intros k Hk. rewrite Hother by done. by rewrite lookup_insert_ne.
  - intros _. destruct L as [|x L]; [|by apply Hne].
    destruct Hnil as [-> ->]; [done|]. apply lookup_insert_eq.
  - done.
  - by etrans.
  - done.
  - intros q' c' [[= -> ->]|Hin]%elem_of_cons; [|by apply H7].
    split; [by eapply lookup_weaken|].
    intros p Hp. eapply lookup_weaken; [|exact H5]. by apply H4.
Qed.

Lemma elem_of_rglob_files (q : list string) (c : string) :
  (q, c) ∈ rglob_files t <-> t !! q = Some (File c).
Proof.
  unfold rglob_files. rewrite elem_of_map_to_list, lookup_omap.
  destruct (t !! q) as [[|c']|]; simpl; naive_solver.
Qed.

(** Extracting an archive of [t] where nothing is in the way recreates
    [t], given that every directory of [t] has a file below it. *)
Lemma extract_archive (world : string) (z : zipfile)
    (d2 : gmap string entry) :
  members z = archive_of world (EDir t) ->
  populated t ->
  d2 !! world = None ->
  exists d3,
    extractall z NoFault d2 = (Py.Ret tt, d3) /\
    d3 !! world = Some (EDir t) /\
    forall k, k ≠ world -> d3 !! k = d2 !! k.
Proof.
  intros Hms [Hfile Hdirs] Hd2. unfold extractall. rewrite Hms. simpl.
  destruct (extract_files world (rglob_files t) 0%nat ∅ d2)
    as (d3 & t' & Hex & Hother & Hne & _ & _ & Hsub & Hall).
  { by right. }
  { apply map_empty_subseteq. }
  { intros q c. by rewrite elem_of_rglob_files. }
  exists d3. split; [done|]. split; [|done].
  assert (Ht' : t' = t).
  { apply (anti_symm (⊆)); [done|].
    apply map_subseteq_spec. intros p [|c] Hp.
    - destruct (Hdirs p Hp) as (q & c & Hq & Hin).
      by apply (Hall q c); [apply elem_of_rglob_files|].
    - by apply (Hall p c), elem_of_rglob_files. }
  rewrite Hne, Ht'; [done|].
  destruct Hfile as (q & c & Hq).
  apply elem_of_rglob_files in Hq. intros E. rewrite E in Hq.
  by apply elem_of_nil in Hq.
Qed.

(** Restoring an archive of [t] puts [t] back, whatever became of the
    world folder since the archive was written, as long as the folder is
    missing or still a directory and no regular file sits at
    [<world>.old]. *)
Lemma restore_recreates (backup : BackupInfo) (world : string) (st : state)
    (z : zipfile) :
  backup_folder st !! path backup = Some z ->
  members z = archive_of world (EDir t) ->
  populated t ->
  absent_or_dir (siblings st !! world) ->
  (forall c, siblings st !! (world +:+ ".old") ≠ Some (EFile c)) ->
  exists st2,
    restore_backup backup world NoFault st = (Py.Ret true, st2) /\
    siblings st2 !! world = Some (EDir t) /\
    backup_folder st2 = backup_folder st.
Proof.
  intros Hz Hms Hpop Hworld Hold.
  pose proof (old_name_fresh world) as Hfresh.
  unfold restore_backup. rewrite Hz.
  destruct (siblings st !! world) as [[c|t0]|] eqn:Hw; [done| |].
  - destruct (safety_rename_moves world _ _ Hw)
      as [(c & Hc & _) | (d2 & -> & Hd2)]; [by apply Hold in Hc|].
    destruct (extract_archive world z d2 Hms Hpop)
      as (d3 & -> & Hd3 & Hother).
    { by rewrite Hd2, lookup_insert_ne, lookup_delete_eq. }
    assert (Hd3old : d3 !! (world +:+ ".old") = Some (EDir t0)).
    { rewrite Hother by done. rewrite Hd2. apply lookup_insert_eq. }
    unfold remove_old. rewrite (exists_true _ _ _ Hd3old).
    unfold rmtree. rewrite Hd3old. simpl.
    eexists. split; [reflexivity|]. simpl.
    by rewrite lookup_delete_ne.
  - unfold safety_rename. rewrite (exists_false _ _ Hw).
    destruct (extract_archive world z (siblings st) Hms Hpop Hw)
      as (d3 & -> & Hd3 & Hother).
    simpl. eexists. split; [reflexivity|]. done.
Qed.

End RoundTrip.

Section Checkers.
Import Backup.

Lemma well_formedb_sound (t : gmap (list string) node) :
  well_formedb t = true -> well_formed t.
Proof.
  unfold well_formedb, well_formed.
  intros [Hroot Hall]%andb_prop. split.
  { by apply bool_decide_eq_true in Hroot. }
  intros q p [n Hq] Hp.
  rewrite forallb_forall in Hall.
  assert (Hin : In (q, n) (map_to_list t))
    by by apply list_elem_of_In, elem_of_map_to_list.
  specialize (Hall _ Hin). simpl in Hall.
  rewrite forallb_forall in Hall.
  apply list_elem_of_In in Hp.
  eapply bool_decide_eq_true_1, Hall. exact Hp.
Qed.

Lemma populatedb_sound (t : gmap (list string) node) :
  populatedb t = true -> populated t.
Proof.
  unfold populatedb, populated.
  intros [Hfile Hall]%andb_prop. split.
  - apply negb_true_iff, bool_decide_eq_false in Hfile.
    destruct (rglob_files t) as [|[q c] l] eqn:E; [done|].
    exists q, c. apply elem_of_rglob_files. rewrite E. by left.
  - intros p Hp. rewrite forallb_forall in Hall.
    assert (Hin : In (p, Dir) (map_to_list t))
      by by apply list_elem_of_In, elem_of_map_to_list.
    specialize (Hall _ Hin). simpl in Hall.
    apply existsb_exists in Hall as ([q c] & Hq & Hpre).
    exists q, c. split.
    + by apply elem_of_rglob_files, list_elem_of_In.
    + by apply bool_decide_eq_true_1 in Hpre.
Qed.
End Checkers.

(** *** Retention pruning *)

Section PruneFacts.
Import Backup.
Variable sv : services.

(** What the loop does by design: it deletes only snapshots older than
    the cutoff, and never goes below [keep_minimum]. *)
Lemma prune_loop_deletes_old cutoff total (backups : list BackupInfo) :
  forall deleted folder,
    Forall (fun b => timestamp b < cutoff) deleted ->
    Forall (fun b => timestamp b < cutoff)
           (fst (prune_loop sv cutoff total backups deleted folder)).
Proof.
  induction backups as [|b backups IH]; intros deleted folder Hdel; simpl;
    [done|].
  destruct (Z.leb_spec (Z.of_nat total - Z.of_nat (length deleted))
                       (keep_minimum sv)); [done|].
  destruct (Z.ltb_spec (timestamp b) cutoff); [|by apply IH].
  destruct (unlink_ok sv (path b)); [|by apply IH].
  apply IH. apply Forall_app. split; [done|]. by apply Forall_singleton.
Qed.

Lemma prune_loop_keeps_minimum cutoff total (backups : list BackupInfo) :
  forall deleted folder,
    keep_minimum sv <= Z.of_nat total - Z.of_nat (length deleted) ->
    keep_minimum sv
      <= Z.of_nat total
         - Z.of_nat (length (fst (prune_loop sv cutoff total backups
                                     deleted folder))).
Proof.
  induction backups as [|b backups IH]; intros deleted folder Hdel; simpl;
    [done|].
  destruct (Z.leb_spec (Z.of_nat total - Z.of_nat (length deleted))
                       (keep_minimum sv)); [done|].
  destruct (Z.ltb_spec (timestamp b) cutoff); [|by apply IH].
  destruct (unlink_ok sv (path b)); [|by apply IH].
  apply IH. rewrite length_app. simpl. lia.
Qed.
End PruneFacts.

(** C3, the code at the failing input: with snapshots aged 1, 10, 20, 31,
    40, 50, 60 and 90 days, [keep_minimum = 5] and [keep_days = 30], the
    loop walks the list newest first and deletes the snapshots aged 31, 40
    and 50 days; those aged 60 and 90 days stay. *)
Theorem prune_deletes_newest_of_the_old :
  Backup.list_backups Examples.manager Examples.eight_snapshots
    = map Examples.snapshot_aged [1; 10; 20; 31; 40; 50; 60; 90] /\
  fst (Backup.prune_backups Examples.manager Examples.noon
         Examples.eight_snapshots)
    = map Examples.snapshot_aged [31; 40; 50] /\
  Backup.list_backups Examples.manager
    (snd (Backup.prune_backups Examples.manager Examples.noon
            Examples.eight_snapshots))
    = map Examples.snapshot_aged [1; 10; 20; 60; 90].
Proof. repeat split; vm_compute; reflexivity. Qed.

(** The retained snapshot aged 90 days is older than [keep_days] and not
    among the five newest. *)
Lemma retention_fails_on_eight_snapshots :
  ~ Backup.retention Examples.manager Examples.noon Examples.eight_snapshots.
Proof.
  unfold Backup.retention. intros H.
  apply (H (Examples.snapshot_aged 90)).
  - vm_compute. repeat (try (left; reflexivity); right).
  - split; [vm_compute; reflexivity|].
    vm_compute. intros Hin.
    repeat (apply elem_of_cons in Hin as [Hin|Hin]; [discriminate Hin|]).
    by apply elem_of_nil in Hin.
Qed.





(* ===================================================================== *)
(** * Properties beyond the specification *)
(* ===================================================================== *)

Section LockFileFacts.
Import Utils Lock LockFile.
Variable os : services.


(** X2. On a lock this host owns, with a writable file and a codec that
    reads back the record it dumps, [update_heartbeat] returns true and
    the record read afterwards differs from the one before only in
    [last_heartbeat], which is the current time. *)
Theorem update_heartbeat_own (w : world) (li : LockInfo) :
  read_lock os w = Some li ->
  hostname li = YStr (get_hostname os) ->
  disk w = WriteOk ->
  (let d := to_dict (set_last_heartbeat (YStr (isoformat os (clock w))) li) in
   safe_load os (dump os d) = Some (DDict d)) ->
  fst (update_heartbeat os w) = true /\
  read_lock os (snd (update_heartbeat os w))
  = Some {| hostname := hostname li;
            started_at := started_at li;
            last_heartbeat := YStr (isoformat os (clock w));
            pid := pid li |}.
Proof.
  intros Hread Hown Hdisk Hcodec. unfold update_heartbeat.
  rewrite Hread. unfold is_own_machine.
  rewrite bool_decide_eq_true_2 by done. simpl. rewrite Hdisk. simpl.
  split; [done|]. unfold read_lock. simpl. rewrite Hcodec.
  rewrite bool_decide_eq_false_2 by apply insert_non_empty.
  by destruct li.
Qed.

(** X3. Whenever [delete_lock] reports success, no lock record is left:
    [read_lock] finds nothing and [check_lock_status] reports [free]. *)
Theorem delete_lock_frees (unlink_ok : bool) (w : world) :
  fst (delete_lock unlink_ok w) = true ->
  read_lock os (snd (delete_lock unlink_ok w)) = None /\
  check_lock_status os (snd (delete_lock unlink_ok w)) = Py.Ret ("free", None).
Proof.
  unfold delete_lock, check_lock_status, read_lock.
  destruct (lock_file w) eqn:E; simpl.
  - by rewrite E.
  - destruct unlink_ok; simpl; [done|discriminate].
  - destruct unlink_ok; simpl; [done|discriminate].
Qed.

(** X4. The record survives the dictionary: [from_dict] gives back the
    record [to_dict] was made from, also when the dictionary carries an
    extra key [from_dict] does not know. *)
Theorem from_dict_ignores_unknown_keys (li : LockInfo) (k : string) (v : yval) :
  k ∉ known_keys ->
  from_dict (<[k := v]> (to_dict li)) = li.
Proof.
  intros Hk. unfold known_keys in Hk.
  assert (Hne : forall k',
    k' ∈ ["hostname"; "started_at"; "last_heartbeat"; "pid"] -> k ≠ k').
  { intros k' Hin ->. done. }
  unfold from_dict.
  rewrite !(lookup_insert_ne _ k) by (apply Hne; set_solver).
  by destruct li.
Qed.

End LockFileFacts.

Section TwoHosts.
Import Utils Lock LockFile.



End TwoHosts.

Section WrapperFacts.
Import Utils Lock LockFile Wrapper.
Variable os : services.
Variable format_size : N -> string.

(** X8. The startup sequence's own copy of the protocol,
    [Wrapper.acquire_lock], returns what
    [LockManager.acquire_lock(pid=0, race_wait)] returns, after the same
    steps and with the same lock file; the two differ at most in the
    manager's [_lock_held] flag, which only the latter resets when the
    race is lost. *)
Theorem wrapper_acquire_lock_agrees (race_wait : Z) (w : world) :
  let mine := Wrapper.acquire_lock os race_wait w in
  let theirs := Lock.acquire_lock os 0 race_wait w in
  fst mine = fst theirs /\
  (forall held, set_held held (snd mine) = set_held held (snd theirs)) /\
  (fst mine = false \/ snd mine = snd theirs).
Proof.
  unfold Wrapper.acquire_lock, Lock.acquire_lock.
  destruct (write_lock os 0 w) as [[] w1]; simpl; [|eauto].
  destruct (read_lock os (sleep os race_wait w1)) as [li|]; simpl; [|eauto].
  case_bool_decide; eauto.
Qed.

(** X9. Whenever [handle_lock] refuses or the operator aborts, the lock
    file and the manager are exactly as they were. *)
Theorem handle_lock_abort_keeps_lock (op : operator) (folder : string)
    (obs : Integrity.observation) (w w' : world) :
  handle_lock os format_size op folder obs w = Py.Ret (false, w') ->
  w' = w.
Proof.
  unfold handle_lock, _handle_own_crash, _handle_other_crash.
  destruct (check_lock_status os w) as [[status info]|e]; simpl; [|done].
  repeat (destruct (String.eqb status _); [|]);
    repeat match goal with
    | |- context [if ?b then _ else _] => destruct b; simpl
    | |- context [match choice op with _ => _ end] =>
        destruct (choice op) as [[|[|?]]|]; simpl
    end; by intros [= <-].
Qed.

(** X10. Whenever [handle_lock] lets the startup go on and [unlink]
    works, no lock record is left behind for [acquire_lock] to find. *)
Theorem handle_lock_clears_lock (op : operator) (folder : string)
    (obs : Integrity.observation) (w w' : world) :
  handle_lock os format_size op folder obs w = Py.Ret (true, w') ->
  unlink_ok op = true ->
  read_lock os w' = None.
Proof.
  unfold handle_lock. intros H Hunlink.
  destruct (check_lock_status os w) as [[status info]|e] eqn:Hst;
    simpl in H; [|done].
  assert (Hdel : read_lock os (snd (delete_lock (unlink_ok op) w)) = None).
  { rewrite Hunlink. unfold delete_lock, read_lock.
    by destruct (lock_file w) eqn:E; simpl; rewrite ?E. }
  destruct (String.eqb_spec status "free") as [->|_].
  { injection H as <-. unfold check_lock_status in Hst.
    destruct (read_lock os w) as [li|]; [|done].
    destruct (is_own_machine os li), (is_stale os _ li _) as [[]|];
      simpl in Hst; by simplify_eq. }
  unfold _handle_own_crash, _handle_other_crash in H.
  repeat (destruct (String.eqb status _); [|]);
    repeat match type of H with
    | context [if ?b then _ else _] => destruct b; simpl in H
    | context [match choice op with _ => _ end] =>
        destruct (choice op) as [[|[|?]]|]; simpl in H
    end; by simplify_eq.
Qed.
End WrapperFacts.

Section PromptFacts.
Import Prompt.

Lemma land_pow2_testbit (m : Z) (n : Z) :
  0 <= n -> (Z.land m (2 ^ n) =? 0)%Z = negb (Z.testbit m n).
Proof.
  intros Hn. destruct (Z.testbit m n) eqn:Hbit; simpl.
  - apply Z.eqb_neq. intros H.
    apply (f_equal (fun z => Z.testbit z n)) in H.
    rewrite Z.land_spec, Hbit, Z.pow2_bits_true, Z.bits_0 in H by done.
    discriminate.
  - apply Z.eqb_eq. apply Z.bits_inj'. intros k Hk.
    rewrite Z.land_spec, Z.bits_0.
    destruct (decide (k = n)) as [->|Hne].
    + by rewrite Hbit.
    + rewrite Z.pow2_bits_false by done. apply andb_false_r.
Qed.

(** X11. [check_file_permissions] calls a file secure exactly when
    neither the others-read bit (value 4) nor the others-write bit
    (value 2) of its mode is set; no other bit matters. *)
Theorem check_file_permissions_bits (oct : Z -> string) (path : string)
    (mode : Z) :
  fst (check_file_permissions oct path (Mode mode)) = true <->
  Z.testbit mode 2 = false /\ Z.testbit mode 1 = false.
Proof.
  unfold check_file_permissions, S_IROTH, S_IWOTH.
  pose proof (land_pow2_testbit mode 2 ltac:(lia)) as H2.
  pose proof (land_pow2_testbit mode 1 ltac:(lia)) as H1.
  change (2 ^ 2) with 4 in H2. change (2 ^ 1) with 2 in H1.
  rewrite H2, H1.
  destruct (Z.testbit mode 2), (Z.testbit mode 1); simpl; naive_solver.
Qed.

Variable strip : string -> string.
Variable lower : string -> string.
Variable int : string -> option Z.

(** X12. Whatever the operator types, an index [choose_option] returns
    is a valid index into the options. *)
Theorem choose_option_in_range (options : list string) (allow_cancel : bool)
    (input : list string) (i : nat) :
  choose_option strip int options allow_cancel input = Some i ->
  (i < length options)%nat.
Proof.
  induction input as [|line rest IH]; simpl; [done|].
  destruct (String.eqb (strip line) ""); [done|].
  destruct (int (strip line)) as [choice|]; [|done].
  destruct (allow_cancel && (choice =? 0)%Z); [done|].
  destruct (Z.leb_spec 1 choice), (Z.leb_spec choice (Z.of_nat (length options)));
    simpl; try done.
  intros [= <-]. lia.
Qed.

(** X13. When cancelling is not allowed, [choose_option] gives up only at
    the end of the input: it returns [None] exactly when every line typed
    was empty, not a number, or a number out of range. *)
Theorem choose_option_no_cancel (options : list string) (input : list string) :
  choose_option strip int options false input = None <->
  Forall (undecided strip int options false) input.
Proof.
  induction input as [|line rest IH]; simpl.
  { split; [by constructor|done]. }
  rewrite Forall_cons, <- IH. unfold undecided.
  destruct (String.eqb_spec (strip line) "") as [Hempty|Hne].
  { naive_solver. }
  destruct (int (strip line)) as [choice|] eqn:Hint; [|naive_solver].
  destruct (Z.leb_spec 1 choice), (Z.leb_spec choice (Z.of_nat (length options)));
    simpl.
  - split; [done|]. intros [[?|[?|(c & [= <-] & _ & Hout)]] _]; try done.
    exfalso. apply Hout. lia.
  - split; [|naive_solver]. intros H'. split; [|done].
    right. right. exists choice. split; [done|]. split; [naive_solver|lia].
  - split; [|naive_solver]. intros H'. split; [|done].
    right. right. exists choice. split; [done|]. split; [naive_solver|lia].
  - split; [|naive_solver]. intros H'. split; [|done].
    right. right. exists choice. split; [done|]. split; [naive_solver|lia].
Qed.

End PromptFacts.

Section ConfirmFacts.
Import Prompt.
Variable strip : string -> string.
Variable lower : string -> string.

(** X14. [confirm_action] keeps asking until a line is an answer (empty,
    y, yes, n, no) and goes by the first such line; when the input ends
    before any answer the result is false, whatever the default. *)
Theorem confirm_action_first_answer (default : bool)
    (junk : list string) (line : string) (rest : list string) :
  Forall (fun l => decisive strip lower l = false) junk ->
  decisive strip lower line = true ->
  confirm_action strip lower default (junk ++ line :: rest)
    = verdict strip lower default line /\
  confirm_action strip lower default junk = false.
Proof.
  intros Hjunk Hline. unfold decisive, verdict in *.
  induction Hjunk as [|l junk Hl _ [IH1 IH2]]; simpl.
  - split; [|done].
    destruct (String.eqb (lower (strip line)) ""); [done|].
    destruct (String.eqb (lower (strip line)) "y"); [done|].
    destruct (String.eqb (lower (strip line)) "yes"); [done|].
    destruct (String.eqb (lower (strip line)) "n"); [done|].
    destruct (String.eqb (lower (strip line)) "no"); done.
  - destruct (String.eqb (lower (strip l)) ""); [done|].
    destruct (String.eqb (lower (strip l)) "y"); [done|].
    destruct (String.eqb (lower (strip l)) "yes"); [done|].
    destruct (String.eqb (lower (strip l)) "n"); [done|].
    destruct (String.eqb (lower (strip l)) "no"); done.
Qed.
End ConfirmFacts.

Section RegionsFacts.
Import Regions.

Lemma add_dimension_invariant (v : world_dir) (dims : list string) :
  forall acc,
    NoDup acc ->
    Forall (fun p => exists_ v p = true) acc ->
    NoDup (fold_left (add_dimension v) dims acc) /\
    Forall (fun p => exists_ v p = true) (fold_left (add_dimension v) dims acc) /\
    acc `prefix_of` fold_left (add_dimension v) dims acc.
Proof.
  induction dims as [|dim dims IH]; intros acc Hnd Hex; simpl; [done|].
  assert (Hstep : NoDup (add_dimension v acc dim) /\
                  Forall (fun p => exists_ v p = true) (add_dimension v acc dim) /\
                  acc `prefix_of` add_dimension v acc dim).
  { unfold add_dimension. destruct (is_dir v [dim]); [|done].
    destruct (exists_ v [dim; "region"]) eqn:E; simpl; [|done].
    case_bool_decide as Hin; simpl; [done|].
    split; [|split].
    - apply NoDup_app. split; [done|]. split; [|apply NoDup_singleton].
      intros p Hp ->%list_elem_of_singleton. done.
    - apply Forall_app. split; [done|]. by apply Forall_singleton.
    - by apply prefix_app_r. }
  destruct Hstep as (H1 & H2 & H3).
  destruct (IH _ H1 H2) as (? & ? & ?). repeat split; try done.
  by etrans.
Qed.

(** X15. [find_region_folders] lists no folder twice, although
    [glob("DIM*")] yields [DIM-1] and [DIM1] again, and every folder it
    lists exists. *)
Theorem find_region_folders_distinct (v : world_dir) :
  NoDup (find_region_folders v) /\
  Forall (fun p => exists_ v p = true) (find_region_folders v).
Proof.
  unfold find_region_folders. cbv zeta.
  match goal with
  | |- context [fold_left _ _ ?acc] =>
      destruct (add_dimension_invariant v (glob_DIM v) acc) as (? & ? & _)
  end; [| |done].
  - destruct (exists_ v ["region"]), (exists_ v ["DIM-1"; "region"]),
      (exists_ v ["DIM1"; "region"]); simpl;
      repeat (apply NoDup_cons; split; [set_solver|]); apply NoDup_nil_2.
  - destruct (exists_ v ["region"]) eqn:E1,
      (exists_ v ["DIM-1"; "region"]) eqn:E2,
      (exists_ v ["DIM1"; "region"]) eqn:E3; simpl;
      repeat (apply Forall_cons; split; [done|]); apply Forall_nil_2.
Qed.
End RegionsFacts.

Section ScanFacts.
Import Integrity Regions.
Variable format_size : N -> string.

Lemma scan_folder_issues (files : list (string * stat_result))
    (report : IntegrityReport) :
  let scanned := fold_left (scan_file format_size) files report in
  issues scanned
    = (issues report
       ++ omap (fun f => check_region_file format_size f.1 f.2) files)%list /\
  checked_files scanned = (checked_files report + length files)%nat /\
  total_files scanned = (total_files report + length files)%nat /\
  error scanned = error report.
Proof.
  revert report. induction files as [|f files IH]; intros report; simpl.
  { rewrite app_nil_r. repeat split; lia. }
  destruct (IH (scan_file format_size report f)) as (-> & -> & -> & ->).
  unfold scan_file.
  destruct (check_region_file format_size f.1 f.2); simpl;
    rewrite <- ?app_assoc; repeat split; lia.
Qed.

Lemma scan_world_issues (folders : list (list (string * stat_result)))
    (report : IntegrityReport) :
  let scanned :=
    fold_left (fun report region_folder =>
                 fold_left (scan_file format_size) region_folder report)
              folders report in
  issues scanned
    = (issues report
       ++ omap (fun f => check_region_file format_size f.1 f.2)
               (concat folders))%list /\
  checked_files scanned = (checked_files report + length (concat folders))%nat /\
  total_files scanned = (total_files report + length (concat folders))%nat /\
  error scanned = error report.
Proof.
  revert report. induction folders as [|files folders IH]; intros report; simpl.
  { rewrite app_nil_r. repeat split; lia. }
  destruct (IH (fold_left (scan_file format_size) files report))
    as (-> & -> & -> & ->).
  destruct (scan_folder_issues files report) as (-> & -> & -> & ->).
  rewrite omap_app, length_app, <- app_assoc. repeat split; lia.
Qed.

Lemma check_world_integrity_scans (folder : string) (obs : observation) :
  world_exists obs = true ->
  region_folders obs <> [] ->
  check_world_integrity format_size folder obs
  = fold_left (fun report region_folder =>
                 fold_left (scan_file format_size) region_folder report)
              (region_folders obs)
              {| world_folder := folder; total_files := 0; checked_files := 0;
                 issues := []; error := None |}.
Proof.
  intros Hex Hne. unfold check_world_integrity. cbv zeta. rewrite Hex.
  cbn [negb]. by destruct (region_folders obs).
Qed.

(** X16. For a world folder that exists and has region folders, the
    report of [check_world_integrity] counts every [*.mca] file of every
    region folder once, as found and as checked, carries no error, and
    lists the issues of the files in scan order. *)
Theorem check_world_integrity_report (folder : string) (obs : observation) :
  world_exists obs = true ->
  region_folders obs <> [] ->
  let report := check_world_integrity format_size folder obs in
  let files := concat (region_folders obs) in
  issues report = omap (fun f => check_region_file format_size f.1 f.2) files /\
  checked_files report = length files /\
  total_files report = length files /\
  error report = None.
Proof.
  intros Hex Hne. cbv zeta.
  rewrite (check_world_integrity_scans folder obs Hex Hne).
  match goal with
  | |- context [fold_left ?f (region_folders obs) ?r] =>
      destruct (scan_world_issues (region_folders obs) r)
        as (H1 & H2 & H3 & H4)
  end.
  by rewrite H1, H2, H3, H4.
Qed.

Lemma check_region_file_sound (file_path : string) (st : stat_result) :
  check_region_file format_size file_path st = None <-> sound st.
Proof.
  unfold check_region_file, sound, SECTOR_SIZE.
  destruct st as [size|msg]; [|naive_solver].
  destruct (N.eqb_spec size 0) as [->|?]; simpl; [naive_solver lia|].
  destruct (N.ltb_spec size (4096 * 2)); simpl; [naive_solver lia|].
  destruct (N.eqb_spec (size mod 4096) 0); simpl; naive_solver lia.
Qed.

(** X17. The report is healthy exactly when the world folder exists, has
    at least one region folder, and every region file found can be
    stat'ed with a size of at least 8192 bytes that is a multiple of
    4096. *)
Theorem check_world_integrity_healthy (folder : string) (obs : observation) :
  is_healthy (check_world_integrity format_size folder obs) = true <->
  world_exists obs = true /\
  region_folders obs <> [] /\
  Forall (fun f => sound f.2) (concat (region_folders obs)).
Proof.
  destruct (world_exists obs) eqn:Hex.
  2:{ unfold check_world_integrity. rewrite Hex. simpl. naive_solver. }
  destruct (region_folders obs) as [|files folders] eqn:Hf.
  { unfold check_world_integrity. rewrite Hex, Hf. simpl. naive_solver. }
  assert (Hne : region_folders obs <> []) by by rewrite Hf.
  rewrite (check_world_integrity_scans folder obs Hex Hne).
  match goal with
  | |- context [fold_left ?f (region_folders obs) ?r] =>
      destruct (scan_world_issues (region_folders obs) r)
        as (Hi & _ & _ & He)
  end.
  unfold is_healthy, has_issues. rewrite Hi, He, Hf.
  rewrite bool_decide_eq_false_2 by (intros H; by apply H).
  rewrite orb_false_r, negb_true_iff, Nat.ltb_ge.
  split.
  - intros Hlen. split; [done|]. split; [done|].
    apply Forall_forall. intros f Hin.
    apply (check_region_file_sound f.1).
    destruct (check_region_file format_size f.1 f.2) as [issue|] eqn:E; [|done].
    assert (issue ∈ omap (fun f => check_region_file format_size f.1 f.2)
                         (concat (files :: folders))).
    { apply list_elem_of_omap. eauto. }
    destruct (omap _ (concat (files :: folders)));
      [by apply elem_of_nil in H|simpl in Hlen; lia].
  - intros (_ & _ & Hall).
    assert (omap (fun f => check_region_file format_size f.1 f.2)
                 (concat (files :: folders)) = []) as ->; [|simpl; lia].
    induction Hall as [|f l Hf' _ IH]; [done|]. simpl.
    apply (check_region_file_sound f.1) in Hf'. by rewrite Hf'.
Qed.
End ScanFacts.

Section StopFacts.
Import Server.

(** X18. When [stop] returns true the child is no longer running, and a
    second [stop] returns true at once without touching it. *)
Theorem stop_true_means_stopped (timeout timeout' : Z) (p : process) :
  fst (stop timeout p) = true ->
  is_running (snd (stop timeout p)) = false /\
  stop timeout' (snd (stop timeout p)) = (true, snd (stop timeout p)).
Proof.
  intros H.
  assert (Hnot : is_running (snd (stop timeout p)) = false).
  { revert H. unfold stop, send_command, kill, wait, is_running.
    destruct p as [st al pipe ex onk tr]; simpl.
    destruct st, al, pipe; simpl; try done;
      try (destruct onk; simpl; done).
    destruct ex as [t|]; simpl.
    - destruct (t <=? timeout)%Z; simpl; [done|].
      destruct onk; simpl; done.
    - destruct onk; simpl; done. }
  split; [done|]. unfold stop at 1. by rewrite Hnot.
Qed.

(** X19. [stop] writes at most the one line [stop] to the child and calls
    [kill()] at most once, and only when that write failed or the child
    did not exit within the timeout. *)
Theorem stop_trace (timeout : Z) (p : process) :
  exists evs,
    trace (snd (stop timeout p)) = (trace p ++ evs)%list /\
    (evs = [] \/ evs = [EvSend "stop"; EvExit] \/
     evs = [EvSend "stop"; EvKill] \/ evs = [EvKill]) /\
    (EvKill ∈ evs ->
     pipe_ok p = false \/
     forall t, exit_after_stop p = Some t -> timeout < t).
Proof.
  unfold stop, send_command, kill, wait, is_running.
  destruct p as [st al pipe ex onk tr]; simpl.
  destruct st, al; simpl;
    try (exists []; rewrite app_nil_r; split; [done|]; split; [by left|];
         by intros ?%elem_of_nil).
  destruct pipe; simpl.
  - destruct ex as [t|]; simpl.
    + destruct (Z.leb_spec t timeout); simpl.
      * exists [EvSend "stop"; EvExit]. rewrite <- app_assoc.
        split; [done|]. split; [by right; left|].
        intros Hin. repeat (apply elem_of_cons in Hin as [Hin|Hin]; [done|]).
        by apply elem_of_nil in Hin.
      * exists [EvSend "stop"; EvKill].
        split; [by destruct onk; simpl; rewrite <- app_assoc|].
        split; [by right; right; left|].
        intros _. right. intros t' [= <-]. done.
    + exists [EvSend "stop"; EvKill].
      split; [by destruct onk; simpl; rewrite <- app_assoc|].
      split; [by right; right; left|].
      intros _. right. intros t' [=].
  - exists [EvKill].
    split; [by destruct onk|]. split; [by right; right; right|].
    intros _. by left.
Qed.
End StopFacts.

Section RequestFacts.
Import Syncthing.
Variable json : Type.
Variable json_loads : string -> option json.
Variable empty_object : json.
Variable url : string.

(** X20. [_request] returns only for a reply with status 200 whose body
    decodes: [{}] for an empty body, otherwise what [json.loads] makes
    of it. *)
Theorem request_returns (method endpoint : string) (net : wire) (v : json) :
  _request json json_loads empty_object url method endpoint net = Py.Ret v <->
  exists phrase content,
    net = Reply 200 phrase (Some content) /\
    ((content = "" /\ v = empty_object) \/
     (content ≠ "" /\ json_loads content = Some v)).
Proof.
  unfold _request, urlopen. split.
  - destruct net as [text|c text| |c text|st phrase body]; simpl.
    + done.
    + destruct (Py.issubclass c Py.ConnectionRefusedError); done.
    + done.
    + unfold isinstance. simpl.
      destruct (Py.issubclass c Py.URLError); [done|].
      destruct (Py.issubclass c Py.HTTPError); [done|].
      destruct (Py.issubclass c Py.JSONDecodeError); [done|].
      destruct (Py.issubclass c Py.TimeoutError); done.
    + destruct (Z.leb_spec 200 st); simpl; [|done].
      destruct (Z.ltb_spec st 300); simpl; [|done].
      destruct (Z.eqb_spec st 200) as [->|]; simpl; [|done].
      destruct body as [content|]; simpl; [|done].
      case_bool_decide as Hc; simpl.
      * destruct (json_loads content) eqn:E; simpl; [|done].
        intros [= <-]. eauto 10.
      * intros [= <-]. eauto 10.
  - intros (phrase & content & -> & [[-> ->] | [Hne Hv]]); simpl; [done|].
    rewrite bool_decide_eq_true_2 by done. by rewrite Hv.
Qed.

End RequestFacts.

Section ClientFacts.
Import Syncthing SyncthingClient.
Variable daemon : Type.
Variable serve : daemon -> request -> wire * daemon.
Variable json_loads : string -> option json.
Variable url : string.
Variable api_key : string.
Variable folder_id : string.






End ClientFacts.

Section FilenameFacts.
Import Backup.
Variable sv : services.

Lemma append_cons (a : ascii) (s t : string) :
  String a s +:+ t = String a (s +:+ t).
Proof. reflexivity. Qed.

Lemma length_append (s t : string) :
  String.length (s +:+ t) = (String.length s + String.length t)%nat.
Proof.
  induction s as [|a s IH]; [done|].
  rewrite append_cons. simpl. by rewrite IH.
Qed.

Lemma substring_all (s : string) : substring 0 (String.length s) s = s.
Proof. induction s as [|a s IH]; simpl; [done|]. by rewrite IH. Qed.

Lemma substring_append_l (s t : string) :
  substring 0 (String.length s) (s +:+ t) = s.
Proof.
  induction s as [|a s IH]; [by destruct t|].
  rewrite append_cons. simpl. by rewrite IH.
Qed.

Lemma substring_append_r (p s : string) (n m : nat) :
  substring (String.length p + n) m (p +:+ s) = substring n m s.
Proof.
  induction p as [|a p IH]; [done|]. rewrite append_cons. simpl. exact IH.
Qed.

Lemma substring_split (s : string) (n : nat) :
  (n <= String.length s)%nat ->
  s = substring 0 n s +:+ substring n (String.length s - n) s.
Proof.
  revert n. induction s as [|a s IH]; intros [|n] Hn; simpl in *;
    try done; try lia.
  - by rewrite substring_all.
  - rewrite append_cons. f_equal. apply IH. lia.
Qed.

Lemma startswith_append (s p : string) :
  startswith s p = true <-> exists r, s = p +:+ r.
Proof.
  unfold startswith. rewrite prefix_correct. split.
  - intros H. exists (substring (String.length p)
                        (String.length s - String.length p) s).
    rewrite <- H at 1. apply substring_split.
    destruct (Nat.le_gt_cases (String.length p) (String.length s)); [done|].
    assert (String.length (substring 0 (String.length p) s)
            <= String.length s)%nat; [|rewrite H in *; lia].
    clear. generalize (String.length p). intros n. revert n.
    induction s as [|a s IH]; intros [|n]; simpl; try lia.
    specialize (IH n). lia.
  - intros [r ->]. apply substring_append_l.
Qed.

Lemma endswith_append (s p : string) :
  endswith s p = true <-> exists r, s = r +:+ p.
Proof.
  unfold endswith. rewrite andb_true_iff, Nat.leb_le, String.eqb_eq. split.
  - intros [Hlen H].
    exists (substring 0 (String.length s - String.length p) s).
    rewrite (substring_split s (String.length s - String.length p)) at 1
      by lia.
    f_equal.
    replace (String.length s - (String.length s - String.length p))%nat
      with (String.length p) by lia.
    exact H.
  - intros [r ->]. rewrite length_append. split; [lia|].
    replace (String.length r + String.length p - String.length p)%nat
      with (String.length r + 0)%nat by lia.
    rewrite substring_append_r. apply substring_all.
Qed.

Lemma append_inj_l (p s t : string) : p +:+ s = p +:+ t -> s = t.
Proof.
  induction p as [|a p IH]; [done|]. rewrite !append_cons. intros [= H]. auto.
Qed.

Lemma append_assoc (s t u : string) : (s +:+ t) +:+ u = s +:+ (t +:+ u).
Proof.
  induction s as [|a s IH]; [done|]. rewrite !append_cons. by rewrite IH.
Qed.

(** The part of a generated name the slice cuts out. *)
Lemma slice_generated (ts : string) :
  slice (String.length BACKUP_PREFIX) (String.length BACKUP_SUFFIX)
        (BACKUP_PREFIX +:+ ts +:+ BACKUP_SUFFIX) = ts.
Proof.
  unfold slice. rewrite !length_append.
  replace (String.length BACKUP_PREFIX
           + (String.length ts + String.length BACKUP_SUFFIX)
           - String.length BACKUP_SUFFIX - String.length BACKUP_PREFIX)%nat
    with (String.length ts) by lia.
  replace (String.length BACKUP_PREFIX)
    with (String.length BACKUP_PREFIX + 0)%nat at 1 by lia.
  rewrite substring_append_r. apply substring_append_l.
Qed.

Lemma parse_generated (ts : string) :
  _parse_backup_filename sv (BACKUP_PREFIX +:+ ts +:+ BACKUP_SUFFIX)
  = strptime sv ts.
Proof.
  unfold _parse_backup_filename.
  rewrite (proj2 (startswith_append _ _)) by eauto.
  rewrite (proj2 (endswith_append _ BACKUP_SUFFIX)).
  2:{ exists (BACKUP_PREFIX +:+ ts). by rewrite append_assoc. }
  simpl negb. cbv iota. by rewrite slice_generated.
Qed.

(** X23. [_parse_backup_filename] accepts exactly the names
    [backup_<ts>.zip] whose middle part [strptime] accepts, and returns
    what [strptime] makes of that part. *)
Theorem parse_backup_filename_exact (filename : string) (t : Z) :
  _parse_backup_filename sv filename = Some t <->
  exists ts,
    filename = BACKUP_PREFIX +:+ ts +:+ BACKUP_SUFFIX /\
    strptime sv ts = Some t.
Proof.
  split.
  2:{ intros (ts & -> & H). by rewrite parse_generated. }
  unfold _parse_backup_filename.
  destruct (startswith filename BACKUP_PREFIX) eqn:Hp; simpl; [|done].
  destruct (endswith filename BACKUP_SUFFIX) eqn:Hs; simpl; [|done].
  apply startswith_append in Hp as [r ->].
  assert (Hr : exists ts, r = ts +:+ BACKUP_SUFFIX).
  { destruct r as [|a [|b [|c [|d r]]]]; try (vm_compute in Hs; discriminate).
    apply endswith_append.
      revert Hs. unfold endswith. rewrite !length_append.
      set (s := String a (String b (String c (String d r)))).
      assert (4 <= String.length s)%nat by (simpl; lia).
      change (String.length BACKUP_SUFFIX) with 4%nat.
      change (String.length BACKUP_PREFIX) with 7%nat.
      replace (7 + String.length s - 4)%nat
        with (String.length BACKUP_PREFIX + (String.length s - 4))%nat
        by (change (String.length BACKUP_PREFIX) with 7%nat; lia).
      rewrite substring_append_r.
      destruct (4 <=? 7 + String.length s)%nat eqn:E1; [|done].
      destruct (4 <=? String.length s)%nat eqn:E2; [done|].
      apply Nat.leb_gt in E2. lia. }
  destruct Hr as [ts ->]. rewrite slice_generated. intros H. eauto.
Qed.
End FilenameFacts.

Section ListFacts.
Import Backup BackupManager.
Variable sv : services.

Lemma insert_newest_first_perm (b : BackupInfo) (l : list BackupInfo) :
  insert_newest_first b l ≡ₚ b :: l.
Proof.
  induction l as [|x l IH]; simpl; [done|].
  destruct (timestamp x <? timestamp b)%Z; [done|].
  rewrite IH. apply Permutation_swap.
Qed.

Lemma insert_newest_first_sorted (b : BackupInfo) (l : list BackupInfo) :
  newest_first l -> newest_first (insert_newest_first b l).
Proof.
  unfold newest_first.
  induction l as [|x l IH]; simpl; intros Hl.
  { apply SSorted_cons; [done|]. constructor. }
  apply StronglySorted_inv in Hl as [Hl Hx].
  destruct (Z.ltb_spec (timestamp x) (timestamp b)).
  - apply SSorted_cons; [by apply SSorted_cons|].
    constructor; [lia|].
    eapply Forall_impl; [exact Hx|]. simpl. intros. lia.
  - apply SSorted_cons; [by apply IH|].
    rewrite insert_newest_first_perm. by constructor.
Qed.

Lemma sort_fold_perm (l acc : list BackupInfo) :
  fold_left (fun acc b => insert_newest_first b acc) l acc ≡ₚ (l ++ acc)%list.
Proof.
  revert acc. induction l as [|b l IH]; intros acc; simpl; [done|].
  rewrite IH, insert_newest_first_perm. by rewrite Permutation_middle.
Qed.

Lemma sort_fold_sorted (l acc : list BackupInfo) :
  newest_first acc ->
  newest_first (fold_left (fun acc b => insert_newest_first b acc) l acc).
Proof.
  revert acc. induction l as [|b l IH]; intros acc Hacc; simpl; [done|].
  apply IH. by apply insert_newest_first_sorted.
Qed.

Lemma elem_of_list_backups (st : state) (b : BackupInfo) :
  b ∈ list_backups sv st <->
  exists z, backup_folder st !! path b = Some z /\
            _parse_backup_filename sv (path b) = Some (timestamp b) /\
            size b = st_size z.
Proof.
  unfold list_backups, sort_newest_first.
  rewrite sort_fold_perm, app_nil_r, list_elem_of_omap. split.
  - intros ([name z] & Hin%elem_of_map_to_list & H).
    destruct (_parse_backup_filename sv name) as [ts|] eqn:E; [|done].
    injection H as <-. simpl. eauto.
  - intros (z & Hz & Hp & Hs). exists (path b, z).
    split; [by apply elem_of_map_to_list|].
    rewrite Hp. destruct b. simpl in *. by subst.
Qed.

Lemma list_backups_paths (st : state) :
  NoDup (path <$> list_backups sv st).
Proof.
  unfold list_backups, sort_newest_first.
  rewrite sort_fold_perm, app_nil_r.
  pose proof (NoDup_fst_map_to_list (backup_folder st)) as Hnd.
  induction (map_to_list (backup_folder st)) as [|[name z] l IH]; simpl;
    [constructor|].
  apply NoDup_cons in Hnd as [Hname Hnd].
  destruct (_parse_backup_filename sv name) as [ts|]; simpl; [|by apply IH].
  apply NoDup_cons. split; [|by apply IH].
  intros Hin. apply Hname.
  apply list_elem_of_fmap in Hin as (b & -> & Hb).
  apply list_elem_of_omap in Hb as ([name' z'] & Hin' & Hb).
  destruct (_parse_backup_filename sv name'); [|done].
  injection Hb as <-. simpl.
  apply list_elem_of_fmap. by exists (name', z').
Qed.

(** X24. [list_backups] lists the archives of the backup folder whose
    name [_parse_backup_filename] accepts, and only those, each once,
    with the parsed timestamp and the size of the file; no listed
    snapshot is older than one listed after it. *)
Theorem list_backups_complete_sorted (st : state) :
  (forall b,
     b ∈ list_backups sv st <->
     exists z, backup_folder st !! path b = Some z /\
               _parse_backup_filename sv (path b) = Some (timestamp b) /\
               size b = st_size z) /\
  NoDup (path <$> list_backups sv st) /\
  newest_first (list_backups sv st).
Proof.
  split; [apply elem_of_list_backups|]. split; [apply list_backups_paths|].
  apply sort_fold_sorted. constructor.
Qed.

(** X25. [get_latest_backup] returns a listed snapshot that no listed
    snapshot is newer than, and nothing only when nothing is listed; it
    is what [get_backup_by_index] returns for index 0, and a negative
    index returns nothing. *)
Theorem get_latest_backup_newest (st : state) :
  match get_latest_backup sv st with
  | Some b =>
      b ∈ list_backups sv st /\
      forall b', b' ∈ list_backups sv st -> timestamp b' <= timestamp b
  | None => list_backups sv st = []
  end /\
  get_backup_by_index sv 0 st = get_latest_backup sv st /\
  forall index, index < 0 -> get_backup_by_index sv index st = None.
Proof.
  unfold get_latest_backup, get_backup_by_index.
  assert (Hs : newest_first (list_backups sv st)).
  { apply sort_fold_sorted. constructor. }
  destruct (list_backups sv st) as [|b l]; simpl.
  - split; [done|]. split; [done|]. intros index H.
    destruct (Z.leb_spec 0 index); [lia|done].
  - apply StronglySorted_inv in Hs as [_ Hb].
    split; [|split].
    + split; [left|]. intros b' [->|Hin]%elem_of_cons; [lia|].
      rewrite Forall_forall in Hb. by apply Hb.
    + done.
    + intros index H. destruct (Z.leb_spec 0 index); [lia|done].
Qed.
End ListFacts.

Section CreateFacts.
Import Backup BackupManager.
Variable sv : services.


(** X27. When opening the archive or writing one of its members raises
    [OSError] or [BadZipFile], [create_backup] raises [BackupError] and,
    if the file can be unlinked, leaves no archive under the new name,
    not even one that was there before; no other archive and nothing
    beside the backup folder has changed. *)
Theorem create_backup_cleans_up (now : Z) (world : string) (f : fault)
    (st : state) (e : entry) (c : zip_error) :
  siblings st !! world = Some e ->
  f = OpenFault c \/
  (exists i, f = MemberFault i c /\ (i < length (archive_of world e))%nat) ->
  c = ZipOSError \/ c = ZipBadZipFile ->
  let name := BACKUP_PREFIX +:+ strftime sv now +:+ BACKUP_SUFFIX in
  exists st',
    create_backup sv now world f st = (Py.Raise Py.BackupError, st') /\
    (unlink_ok sv name = true -> backup_folder st' !! name = None) /\
    siblings st' = siblings st /\
    forall name', name' ≠ name ->
      backup_folder st' !! name' = backup_folder st !! name'.
Proof.
  intros Hw Hf Hc name.
  assert (Hcaught :
    Py.issubclass_any (zip_class c) [Py.OSError; Py.BadZipFile] = true).
  { by destruct Hc as [-> | ->]. }
  unfold create_backup. rewrite Hw.
  destruct Hf as [-> | (i & -> & Hi)].
  - cbv beta iota zeta. rewrite Hcaught. fold name.
    eexists. split; [reflexivity|]. simpl.
    split; [|split; [done|]].
    + intros ->. rewrite andb_true_r.
      case_bool_decide as Hex; [apply lookup_delete_eq|].
      destruct (backup_folder st !! name) eqn:E; [|done].
      exfalso. apply Hex. eauto.
    + intros name' Hne.
      destruct (bool_decide _ && unlink_ok sv name); [|done].
      by rewrite lookup_delete_ne.
  - apply Nat.ltb_lt in Hi. cbv beta iota zeta. rewrite Hi.
    cbv beta iota zeta. rewrite Hcaught. fold name.
    eexists. split; [reflexivity|]. simpl.
    split; [|split; [done|]].
    + intros ->. rewrite andb_true_r.
      rewrite bool_decide_eq_true_2 by (rewrite lookup_insert_eq; eauto).
      apply lookup_delete_eq.
    + intros name' Hne.
      destruct (bool_decide _ && unlink_ok sv name).
      * by rewrite lookup_delete_ne, lookup_insert_ne.
      * by rewrite lookup_insert_ne.
Qed.
End CreateFacts.

Section PolicyFacts.
Import Backup BackupManager.
Variable sv : services.

Lemma prune_loop_effect cutoff total (backups : list BackupInfo) :
  forall deleted folder,
    exists extra,
      fst (prune_loop sv cutoff total backups deleted folder)
        = (deleted ++ extra)%list /\
      sublist extra backups /\
      forall name,
        snd (prune_loop sv cutoff total backups deleted folder) !! name
        = if bool_decide (name ∈ path <$> extra) then None
          else folder !! name.
Proof.
  induction backups as [|b backups IH]; intros deleted folder; simpl.
  { exists []. rewrite app_nil_r. split; [done|]. split; [done|].
    intros name. rewrite bool_decide_eq_false_2; [done|].
    by intros ?%elem_of_nil. }
  assert (Hskip : exists extra,
    fst (prune_loop sv cutoff total backups deleted folder)
      = (deleted ++ extra)%list /\
    sublist extra (b :: backups) /\
    forall name,
      snd (prune_loop sv cutoff total backups deleted folder) !! name
      = if bool_decide (name ∈ path <$> extra) then None else folder !! name).
  { destruct (IH deleted folder) as (extra & H1 & H2 & H3).
    exists extra. split; [done|]. split; [by apply sublist_cons|done]. }
  destruct (Z.leb_spec (Z.of_nat total - Z.of_nat (length deleted))
                       (keep_minimum sv)).
  { exists []. rewrite app_nil_r. split; [done|].
    split; [apply sublist_nil_l|].
    intros name. rewrite bool_decide_eq_false_2; [done|].
    by intros ?%elem_of_nil. }
  destruct (timestamp b <? cutoff)%Z; [|exact Hskip].
  destruct (unlink_ok sv (path b)); [|exact Hskip].
  destruct (IH (deleted ++ [b])%list (delete (path b) folder))
    as (extra & H1 & H2 & H3).
  exists (b :: extra). split; [by rewrite H1, <- app_assoc|].
  split; [by apply sublist_skip|].
  intros name. rewrite H3, fmap_cons.
  destruct (decide (name = path b)) as [->|Hne].
  - rewrite (bool_decide_eq_true_2 (path b ∈ path b :: (path <$> extra)))
      by left.
    case_bool_decide; [done|]. apply lookup_delete_eq.
  - rewrite lookup_delete_ne by done.
    case_bool_decide as H4; case_bool_decide as H5; try done.
    + exfalso. apply H5. by right.
    + apply elem_of_cons in H5 as [?|?]; done.
Qed.

(** X28. What [prune_backups] deletes are listed snapshots, in the order
    listed and each older than [keep_days]; unless it deletes nothing,
    at least [keep_minimum] of the listed snapshots are not deleted; the
    archives of the deleted snapshots are gone from the backup folder,
    and no other archive and nothing beside the backup folder has
    changed. *)
Theorem prune_backups_policy (now : Z) (st : state) :
  let deleted := fst (prune_backups sv now st) in
  let st' := snd (prune_backups sv now st) in
  sublist deleted (list_backups sv st) /\
  Forall (fun b => timestamp b < now - keep_days sv * 86400 * 1000000)
         deleted /\
  (deleted = [] \/
   keep_minimum sv
     <= Z.of_nat (length (list_backups sv st)) - Z.of_nat (length deleted)) /\
  (forall name,
     backup_folder st' !! name
     = if bool_decide (name ∈ path <$> deleted) then None
       else backup_folder st !! name) /\
  siblings st' = siblings st.
Proof.
  unfold prune_backups.
  assert (Hnone : forall name : string,
    backup_folder st !! name
    = if bool_decide (name ∈ path <$> ([] : list BackupInfo)) then None
      else backup_folder st !! name).
  { intros name. rewrite bool_decide_eq_false_2; [done|].
    by intros ?%elem_of_nil. }
  destruct (auto_prune sv); simpl.
  2:{ split; [apply sublist_nil_l|]. split; [done|]. split; [by left|].
      done. }
  destruct (Z.leb_spec (Z.of_nat (length (list_backups sv st)))
                       (keep_minimum sv)) as [Hle|Hgt]; simpl.
  { split; [apply sublist_nil_l|]. split; [done|]. split; [by left|].
    done. }
  set (cutoff := now - keep_days sv * 86400 * 1000000).
  set (total := length (list_backups sv st)) in *.
  destruct (prune_loop_effect cutoff total (list_backups sv st) []
              (backup_folder st)) as (extra & H1 & H2 & H3).
  pose proof (prune_loop_deletes_old sv cutoff total (list_backups sv st) []
                (backup_folder st) (Forall_nil_2 _)) as Hold.
  pose proof (prune_loop_keeps_minimum sv cutoff total (list_backups sv st) []
                (backup_folder st)) as Hmin.
  destruct (prune_loop sv cutoff total (list_backups sv st) []
              (backup_folder st)) as [deleted folder].
  simpl in *. subst deleted.
  split; [done|]. split; [done|]. split; [right; apply Hmin; lia|].
  split; [|done]. exact H3.
Qed.
End PolicyFacts.

Section RestoreFacts.
Import Backup BackupManager.

Lemma rmtree_other name (d d' : gmap string entry) k :
  rmtree name d = Py.Ret d' -> k ≠ name -> d' !! k = d !! k.
Proof.
  unfold rmtree. destruct (d !! name) as [[c|t]|]; try done.
  intros [= <-] Hk. by rewrite lookup_delete_ne.
Qed.

Lemma rename_other src dst (d d' : gmap string entry) k :
  rename src dst d = Py.Ret d' -> k ≠ src -> k ≠ dst -> d' !! k = d !! k.
Proof.
  unfold rename. intros H Hs Hd.
  assert (Hmoved : forall e,
    <[dst := e]> (delete src d) !! k = d !! k).
  { intros e. by rewrite lookup_insert_ne, lookup_delete_ne. }
  destruct (d !! src) as [e|]; [|done].
  destruct (d !! dst) as [[c|t]|], e as [c'|t']; try done;
    try (injection H as <-; apply Hmoved).
  case_bool_decide; [|done]. injection H as <-. apply Hmoved.
Qed.

Lemma safety_rename_other target (d d' : gmap string entry) r k :
  safety_rename target d = (r, d') ->
  k ≠ target -> k ≠ target +:+ ".old" -> d' !! k = d !! k.
Proof.
  unfold safety_rename. intros H Ht Ho.
  destruct (exists_ target d); [|by simplify_eq].
  destruct (exists_ (target +:+ ".old") d).
  - destruct (rmtree _ d) as [d1|e] eqn:E1; [|by simplify_eq].
    destruct (rename target _ d1) as [d2|e] eqn:E2; simplify_eq.
    + rewrite (rename_other _ _ _ _ _ E2) by done.
      by apply (rmtree_other _ _ _ _ E1).
    + by apply (rmtree_other _ _ _ _ E1).
  - destruct (rename target _ d) as [d2|e] eqn:E2; simplify_eq; [|done].
    by apply (rename_other _ _ _ _ _ E2).
Qed.

Lemma remove_old_other old_world (d d' : gmap string entry) r k :
  remove_old old_world d = (r, d') ->
  (forall old, old_world = Some old -> k ≠ old) -> d' !! k = d !! k.
Proof.
  unfold remove_old. intros H Hk.
  destruct old_world as [old|]; [|by simplify_eq].
  destruct (exists_ old d); [|by simplify_eq].
  destruct (rmtree old d) as [d1|e] eqn:E; simplify_eq; [|done].
  apply (rmtree_other _ _ _ _ E). by apply Hk.
Qed.

Lemma rollback_other old_world target (d d' : gmap string entry) r k :
  rollback old_world target d = (r, d') ->
  k ≠ target -> (forall old, old_world = Some old -> k ≠ old) ->
  d' !! k = d !! k.
Proof.
  unfold rollback. intros H Ht Hk.
  destruct old_world as [old|]; [|by simplify_eq].
  specialize (Hk old eq_refl).
  destruct (exists_ old d); [|by simplify_eq].
  destruct (exists_ target d).
  - destruct (rmtree target d) as [d1|e] eqn:E1; [|by simplify_eq].
    destruct (rename old target d1) as [d2|e] eqn:E2; simplify_eq.
    + rewrite (rename_other _ _ _ _ _ E2) by done.
      by apply (rmtree_other _ _ _ _ E1).
    + by apply (rmtree_other _ _ _ _ E1).
  - destruct (rename old target d) as [d2|e] eqn:E2; simplify_eq; [|done].
    by apply (rename_other _ _ _ _ _ E2).
Qed.

Lemma safety_rename_old target (d d' : gmap string entry) old :
  safety_rename target d = (Py.Ret (Some old), d') -> old = target +:+ ".old".
Proof.
  unfold safety_rename.
  destruct (exists_ target d); [|done].
  destruct (if exists_ _ d then _ else _) as [d1|e]; [|done].
  destruct (rename _ _ d1); [|done]. by intros [= <- _].
Qed.

(** X29. Whatever happens, [restore_backup] leaves the backup folder as
    it was and, beside the target, touches only [<target>.old] and the
    names at the top of the archive; without the archive it raises
    [BackupError] and changes nothing. *)
Theorem restore_backup_frame (backup : BackupInfo) (target : string)
    (f : fault) (st : state) :
  let st' := snd (restore_backup backup target f st) in
  backup_folder st' = backup_folder st /\
  (forall name,
     name ≠ target -> name ≠ target +:+ ".old" ->
     (forall z m, backup_folder st !! path backup = Some z ->
                  m ∈ members z -> arc_top m ≠ name) ->
     siblings st' !! name = siblings st !! name) /\
  (backup_folder st !! path backup = None ->
   restore_backup backup target f st = (Py.Raise Py.BackupError, st)).
Proof.
  unfold restore_backup.
  destruct (backup_folder st !! path backup) as [z|] eqn:Hz; [|done].
  split; [|split; [|done]].
  - destruct (safety_rename target (siblings st)) as [[old_world|e] d1];
      [|done].
    destruct (extractall z f d1) as [[[]|e] d2].
    + destruct (remove_old old_world d2) as [[[]|e] d3]; [done|].
      destruct (Py.issubclass_any e _); [|done].
      by destruct (rollback old_world target d3) as [[[]|e'] d4].
    + destruct (Py.issubclass_any e _); [|done].
      by destruct (rollback old_world target d2) as [[[]|e'] d4].
  - intros name Ht Ho Hms. specialize (Hms z).
    destruct (safety_rename target (siblings st)) as [[old_world|e] d1] eqn:E1.
    2:{ simpl. by apply (safety_rename_other _ _ _ _ _ E1). }
    assert (H1 : d1 !! name = siblings st !! name).
    { by apply (safety_rename_other _ _ _ _ _ E1). }
    assert (Hold : forall old, old_world = Some old -> name ≠ old).
    { intros old ->. by rewrite (safety_rename_old _ _ _ _ E1). }
    destruct (extractall z f d1) as [r2 d2] eqn:E2.
    assert (H2 : d2 !! name = d1 !! name).
    { apply (extractall_other _ _ _ _ _ _ E2). intros m Hm. by apply Hms. }
    assert (Hrb : forall d3 e,
      d3 !! name = siblings st !! name ->
      siblings
        (snd (if Py.issubclass_any e [Py.OSError; Py.BadZipFile]
              then match rollback old_world target d3 with
                   | (Py.Ret _, d) =>
                       (Py.Raise Py.BackupError, set_siblings d st)
                   | (Py.Raise e', d) => (Py.Raise e', set_siblings d st)
                   end
              else (Py.Raise e, set_siblings d3 st)
              : Py.outcome Py.cls bool * state)) !! name
      = siblings st !! name).
    { intros d3 e H3.
      destruct (Py.issubclass_any e _); [|done].
      destruct (rollback old_world target d3) as [r4 d4] eqn:E4.
      assert (d4 !! name = d3 !! name)
        by by apply (rollback_other _ _ _ _ _ _ E4).
      destruct r4; simpl; congruence. }
    destruct r2 as [[]|e].
    + destruct (remove_old old_world d2) as [r3 d3] eqn:E3.
      assert (H3 : d3 !! name = d2 !! name)
        by by apply (remove_old_other _ _ _ _ _ E3).
      destruct r3 as [[]|e]; [simpl; congruence|].
      apply Hrb. congruence.
    + apply Hrb. congruence.
Qed.
End RestoreFacts.

Section DamageFacts.
Import Backup BackupManager.
Variable sv : services.

(** X30. A snapshot puts the world folder back as it was when the
    snapshot was taken, whatever has become of the folder since (files
    changed, added or deleted, the folder itself removed), as long as
    the archive is still there, the folder is missing or a directory and
    no regular file sits at [<world>.old].  The world folder is well
    formed and each of its directories, the root included, has a regular
    file somewhere below it. *)
Theorem snapshot_survives_damage (now : Z) (world : string)
    (t : gmap (list string) node) (st st1 st2 : state) (b : BackupInfo) :
  well_formed t ->
  populated t ->
  siblings st !! world = Some (EDir t) ->
  create_backup sv now world NoFault st = (Py.Ret b, st1) ->
  backup_folder st2 !! path b = backup_folder st1 !! path b ->
  absent_or_dir (siblings st2 !! world) ->
  (forall c, siblings st2 !! (world +:+ ".old") ≠ Some (EFile c)) ->
  exists st3,
    restore_backup b world NoFault st2 = (Py.Ret true, st3) /\
    siblings st3 !! world = Some (EDir t).
Proof.
  intros Hwf Hpop Hw Hc Harch Hdir Hold.
  unfold create_backup in Hc. rewrite Hw in Hc. simpl in Hc.
  destruct (strptime sv (strftime sv now)) as [ts|]; [|done].
  injection Hc as <- <-. simpl in Harch. rewrite lookup_insert_eq in Harch.
  destruct (restore_recreates t Hwf
              {| path := BACKUP_PREFIX +:+ strftime sv now +:+ BACKUP_SUFFIX;
                 timestamp := ts;
                 size := deflate_size sv (archive_of world (EDir t)) |}
              world st2 _ Harch eq_refl Hpop Hdir Hold)
    as (st3 & Hr & Hw3 & _).
  by exists st3.
Qed.
End DamageFacts.

Section Witnesses.
Import Utils.


(** Witness for X2: [alpha] refreshes its own lock at 12:00:10. *)
Lemma update_heartbeat_own_witness :
  fst (LockFile.update_heartbeat Examples.alpha Scenarios.alpha_holds) = true /\
  Lock.read_lock Examples.alpha
    (snd (LockFile.update_heartbeat Examples.alpha Scenarios.alpha_holds))
  = Some {| Lock.hostname := YStr "alpha";
            Lock.started_at := YStr "2024-04-10T12:00:00+00:00";
            Lock.last_heartbeat := YStr "2024-04-10T12:00:10+00:00";
            Lock.pid := YInt 0 |}.
Proof.
  apply (update_heartbeat_own Examples.alpha Scenarios.alpha_holds
           (Lock.fresh_lock Examples.alpha 1712750400000000 0)).
  - vm_compute. reflexivity.
  - reflexivity.
  - reflexivity.
  - vm_compute. reflexivity.
Defined.

(** Witness for X3: deleting [beta]'s lock frees it. *)
Lemma delete_lock_frees_witness :
  Lock.read_lock Examples.alpha
    (snd (LockFile.delete_lock true Examples.beta_holds)) = None /\
  Lock.check_lock_status Examples.alpha
    (snd (LockFile.delete_lock true Examples.beta_holds))
  = Py.Ret ("free", None).
Proof.
  apply (delete_lock_frees Examples.alpha true Examples.beta_holds).
  reflexivity.
Defined.

(** Witness for X4: a [version] entry does not disturb the record. *)
Lemma from_dict_ignores_unknown_keys_witness :
  Lock.from_dict (<["version" := YInt 2]> (Lock.to_dict Examples.beta_lock))
  = Examples.beta_lock.
Proof.
  apply (from_dict_ignores_unknown_keys Examples.beta_lock "version" (YInt 2)).
  intros H. unfold LockFile.known_keys in H.
  repeat (apply elem_of_cons in H as [H|H]; [discriminate H|]).
  by apply elem_of_nil in H.
Defined.




(** Witness for X9: [beta] is active, [alpha] is refused. *)
Lemma handle_lock_abort_keeps_lock_witness :
  Wrapper.handle_lock Examples.alpha Scenarios.plain_size Scenarios.recovers
    "world" Scenarios.one_truncated Examples.beta_holds
  = Py.Ret (false, Examples.beta_holds) /\
  Examples.beta_holds = Examples.beta_holds.
Proof.
  assert (H : Wrapper.handle_lock Examples.alpha Scenarios.plain_size
                Scenarios.recovers "world" Scenarios.one_truncated
                Examples.beta_holds
              = Py.Ret (false, Examples.beta_holds)).
  { vm_compute. reflexivity. }
  split; [exact H|].
  exact (handle_lock_abort_keeps_lock Examples.alpha Scenarios.plain_size
           Scenarios.recovers "world" Scenarios.one_truncated
           Examples.beta_holds Examples.beta_holds H).
Defined.

(** Witness for X10: [alpha] recovers from its own crash. *)
Lemma handle_lock_clears_lock_witness :
  exists w',
    Wrapper.handle_lock Examples.alpha Scenarios.plain_size Scenarios.recovers
      "world" Scenarios.one_truncated Scenarios.alpha_holds
    = Py.Ret (true, w') /\
    Lock.read_lock Examples.alpha w' = None.
Proof.
  eexists. split.
  - vm_compute. reflexivity.
  - eapply (handle_lock_clears_lock Examples.alpha Scenarios.plain_size
              Scenarios.recovers "world" Scenarios.one_truncated
              Scenarios.alpha_holds).
    + vm_compute. reflexivity.
    + reflexivity.
Defined.

(** Witness for X12: the operator types 7, then 2, with two options. *)
Lemma choose_option_in_range_witness :
  Prompt.choose_option (fun s => s) Scenarios.int_digits
    ["Recover"; "Abort"] true ["7"; "2"] = Some 1%nat /\
  (1 < length ["Recover"; "Abort"])%nat.
Proof.
  assert (H : Prompt.choose_option (fun s => s) Scenarios.int_digits
                ["Recover"; "Abort"] true ["7"; "2"] = Some 1%nat).
  { vm_compute. reflexivity. }
  split; [exact H|].
  exact (choose_option_in_range (fun s => s) Scenarios.int_digits
           ["Recover"; "Abort"] true ["7"; "2"] 1%nat H).
Defined.

(** Witness for X14: the operator types [maybe], then [y]. *)
Lemma confirm_action_first_answer_witness :
  Prompt.confirm_action (fun s => s) (fun s => s) false
    (["maybe"] ++ "y" :: ["n"])
  = Prompt.verdict (fun s => s) (fun s => s) false "y" /\
  Prompt.confirm_action (fun s => s) (fun s => s) false ["maybe"] = false.
Proof.
  apply (confirm_action_first_answer (fun s => s) (fun s => s) false
           ["maybe"] "y" ["n"]).
  - repeat constructor.
  - reflexivity.
Defined.

(** Witness for X16: two files scanned, one issue. *)
Lemma check_world_integrity_report_witness :
  let report :=
    Integrity.check_world_integrity Scenarios.plain_size "world"
      Scenarios.one_truncated in
  let files := concat (Integrity.region_folders Scenarios.one_truncated) in
  Integrity.issues report
  = omap (fun f => Integrity.check_region_file Scenarios.plain_size f.1 f.2)
         files /\
  Integrity.checked_files report = length files /\
  Integrity.total_files report = length files /\
  Integrity.error report = None.
Proof.
  apply (check_world_integrity_report Scenarios.plain_size "world"
           Scenarios.one_truncated).
  - reflexivity.
  - discriminate.
Defined.

(** Witness for X18: the hung child is killed and stays stopped. *)
Lemma stop_true_means_stopped_witness :
  Server.is_running (snd (Server.stop 60 Examples.hung_child)) = false /\
  Server.stop 30 (snd (Server.stop 60 Examples.hung_child))
  = (true, snd (Server.stop 60 Examples.hung_child)).
Proof.
  apply (stop_true_means_stopped 60 30 Examples.hung_child). reflexivity.
Defined.


(** Witness for X27: the disk is full when the second member is
    written. *)
Lemma create_backup_cleans_up_witness :
  exists st',
    Backup.create_backup Examples.manager Examples.noon "world"
      (Backup.MemberFault 1 Backup.ZipOSError)
      (Examples.server_folder Examples.small_world)
    = (Py.Raise Py.BackupError, st') /\
    Backup.backup_folder st' !! "backup_2024-04-10_12-00-00.zip" = None.
Proof.
  destruct (create_backup_cleans_up Examples.manager Examples.noon "world"
              (Backup.MemberFault 1 Backup.ZipOSError)
              (Examples.server_folder Examples.small_world)
              (Backup.EDir Examples.small_world) Backup.ZipOSError)
    as (st' & Hc & Hgone & _).
  - vm_compute. reflexivity.
  - right. exists 1%nat. split; [reflexivity|]. vm_compute. lia.
  - by left.
  - exists st'. split; [exact Hc|]. apply Hgone. reflexivity.
Defined.

(** Witness for X30: the world changed after the snapshot; restoring
    brings the small world back. *)
Lemma snapshot_survives_damage_witness :
  exists st3,
    Backup.restore_backup Scenarios.noon_snapshot "world" Backup.NoFault
      Examples.before_restore = (Py.Ret true, st3) /\
    Backup.siblings st3 !! "world" = Some (Backup.EDir Examples.small_world).
Proof.
  apply (snapshot_survives_damage Examples.manager Examples.noon "world"
           Examples.small_world (Examples.server_folder Examples.small_world)
           Scenarios.after_backup Examples.before_restore
           Scenarios.noon_snapshot).
  - apply well_formedb_sound. vm_compute. reflexivity.
  - apply populatedb_sound. vm_compute. reflexivity.
  - vm_compute. reflexivity.
  - vm_compute. reflexivity.
  - reflexivity.
  - vm_compute. exact I.
  - intros c. vm_compute. discriminate.
Defined.
End Witnesses.
